(** * pyQMMM: combine_xyz_files.py, a shallow embedding

    The script stitches frames of several XYZ trajectories into one file.
    Its four functions are embedded here as they are written:
    [get_xyz_filenames], [request_frames], [multiframe_xyz_to_list] and
    [combine_xyz_files].  The functions of pair_scan_swapper.py,
    [get_atom] and [swap_atoms], follow them.

    Conventions of the embedding
    - text is ASCII: a Python [str] is a [string], an [int] is a [Z];
    - an open text file is the list of the lines its iteration yields
      (each line keeps its newline);
    - an exception is a value of [exn]; a call either returns [Ok v] or
      [Raise e];
    - the three things the script touches outside itself (the directory
      listing of [./*.xyz], the keyboard, the file [combined.xyz]) are the
      fields of [world], threaded through the monad [M];
    - a [print] of a well-formed message has no effect that is modelled;
      its argument expressions are evaluated, as they can raise. *)

From Stdlib Require Import ZArith List String Ascii Bool Lia Sorted.
From Stdlib Require Import DecimalString.
Import ListNotations.

Open Scope string_scope.
Open Scope list_scope.
Open Scope Z_scope.

(** ** Exceptions and results *)

(** The exceptions the interpreter can raise in this script, followed by
    the four error names of the specification's taxonomy ([IndexError] is
    shared with Python).  No definition below constructs [FormatError],
    [RangeParseError] or [EmptyCombinationError]: they are here so that
    statements about them can be written. *)
Inductive exn : Type :=
| ValueError
| TypeError
| UnboundLocalError
| EOFError
| FileNotFoundError
| IndexError
| FormatError
| RangeParseError
| EmptyCombinationError.

Inductive result (A : Type) : Type :=
| Ok (a : A)
| Raise (e : exn).

Arguments Ok {A} a.
Arguments Raise {A} e.

Definition rbind {A B : Type} (r : result A) (k : A -> result B) : result B :=
  match r with
  | Ok a => k a
  | Raise e => Raise e
  end.

Declare Scope result_scope.
Delimit Scope result_scope with result.
Notation "x <- c ;; k" := (rbind c (fun x => k))
  (at level 61, c at next level, right associativity) : result_scope.

(** [list(map(f, xs))], left to right, stopping at the first exception. *)
Fixpoint map_result {A B : Type} (f : A -> result B) (xs : list A)
  : result (list B) :=
  match xs with
  | [] => Ok []
  | x :: xs' =>
      (y <- f x ;;
       ys <- map_result f xs' ;;
       Ok (y :: ys))%result
  end.

(** ** The Python builtins the script calls *)

Module Py.

(** [str.isspace] on an ASCII character: TAB..CR, FS..US and the space. *)
Definition isspace (c : ascii) : bool :=
  let n := nat_of_ascii c in
  (((9 <=? n) && (n <=? 13)) || ((28 <=? n) && (n <=? 32)))%nat.

(** The whitespace [int] skips around an ASCII literal: TAB..CR and the
    space (FS..US are not skipped). *)
Definition isspace_c (c : ascii) : bool :=
  let n := nat_of_ascii c in
  (((9 <=? n) && (n <=? 13)) || (n =? 32))%nat.

Fixpoint lstrip_by (p : ascii -> bool) (s : string) : string :=
  match s with
  | EmptyString => EmptyString
  | String c s' => if p c then lstrip_by p s' else s
  end.

Fixpoint rstrip_by (p : ascii -> bool) (s : string) : string :=
  match s with
  | EmptyString => EmptyString
  | String c s' =>
      match rstrip_by p s' with
      | EmptyString => if p c then EmptyString else String c EmptyString
      | r => String c r
      end
  end.

(** [s.strip()] *)
Definition strip (s : string) : string :=
  rstrip_by isspace (lstrip_by isspace s).

(** [s.split(sep)] for a one-character separator: every occurrence cuts,
    empty pieces are kept, and the result is never empty. *)
Fixpoint split (sep : ascii) (s : string) : list string :=
  match s with
  | EmptyString => [EmptyString]
  | String c s' =>
      if Ascii.eqb c sep then EmptyString :: split sep s'
      else match split sep s' with
           | [] => [String c EmptyString]
           | piece :: pieces => String c piece :: pieces
           end
  end.

Definition digit_of (c : ascii) : option Z :=
  let n := nat_of_ascii c in
  if ((48 <=? n) && (n <=? 57))%nat then Some (Z.of_nat n - 48) else None.

(** The digits of a decimal literal: at least one digit, and single
    underscores allowed between two digits.  [after_digit] tells whether
    the previous character was a digit; an underscore is accepted only
    then, and the literal may not end just after one. *)
Fixpoint int_digits (acc : Z) (after_digit : bool) (s : string) : option Z :=
  match s with
  | EmptyString => if after_digit then Some acc else None
  | String c s' =>
      match digit_of c with
      | Some d => int_digits (10 * acc + d) true s'
      | None =>
          if Ascii.eqb c "_" && after_digit then int_digits acc false s'
          else None
      end
  end.

(** [int(s)] for a [str] argument, base ten: surrounding whitespace, an
    optional sign, then the digits.  Anything else is a [ValueError].
    (The interpreter's optional cap on the number of digits is not
    modelled.) *)
Definition int (s : string) : result Z :=
  let t := rstrip_by isspace_c (lstrip_by isspace_c s) in
  let parsed :=
    match t with
    | String "+" r => int_digits 0 false r
    | String "-" r => option_map Z.opp (int_digits 0 false r)
    | _ => int_digits 0 false t
    end in
  match parsed with
  | Some z => Ok z
  | None => Raise ValueError
  end.

(** [range(a, b)] as the list of its elements. *)
Definition range (a b : Z) : list Z :=
  map (fun i => a + Z.of_nat i) (seq 0 (Z.to_nat (b - a))).

(** The arguments [len] is called with in this script. *)
Inductive len_arg : Type :=
| ArgList (l : list string)
| ArgStr (s : string).

(** [len] applied to its argument list: exactly one argument, or a
    [TypeError]. *)
Definition len (args : list len_arg) : result Z :=
  match args with
  | [ArgList l] => Ok (Z.of_nat (List.length l))
  | [ArgStr s] => Ok (Z.of_nat (String.length s))
  | _ => Raise TypeError
  end.

(** What a list of ints is subscripted with: an int or a tuple of ints. *)
Inductive subscript : Type :=
| Index (i : Z)
| TupleKey (t : list Z).

(** The values a name bound to the result of such a subscript, or to the
    list itself, may hold. *)
Inductive value : Type :=
| VInt (z : Z)
| VList (l : list Z).

(** [l[key]]: an int key indexes (negative keys from the end, [IndexError]
    out of range); a tuple key is a [TypeError]. *)
Definition getitem (l : list Z) (key : subscript) : result value :=
  match key with
  | Index i =>
      let n := Z.of_nat (List.length l) in
      let j := if i <? 0 then i + n else i in
      if (0 <=? j) && (j <? n) then Ok (VInt (nth (Z.to_nat j) l 0))
      else Raise IndexError
  | TupleKey _ => Raise TypeError
  end.

(** [x in container]: membership in a list; an int is not iterable. *)
Definition contains (x : Z) (container : value) : result bool :=
  match container with
  | VList l => Ok (existsb (Z.eqb x) l)
  | VInt _ => Raise TypeError
  end.

(** [s == b] for a [str] and a [bool]: values of the two types are never
    equal. *)
Definition str_eq_bool (s : string) (b : bool) : bool := false.

End Py.

(** ** The world outside the script *)

(** [xyz_files]: the files matching [./*.xyz], in the order [glob.glob]
    lists them, each with the lines its iteration yields.
    [stdin]: the lines the user will type, one per call of [input].
    [combined_xyz]: the text of [combined.xyz] once this run has opened it
    for writing, [None] as long as it has not. *)
Record world : Type := mkWorld {
  xyz_files : list (string * list string);
  stdin : list string;
  combined_xyz : option string
}.

(** State and exceptions: the world is kept when an exception is raised,
    as what was done to it before stays done. *)
Definition M (A : Type) : Type := world -> result A * world.

Definition ret {A : Type} (a : A) : M A := fun w => (Ok a, w).

Definition raise {A : Type} (e : exn) : M A := fun w => (Raise e, w).

Definition lift {A : Type} (r : result A) : M A := fun w => (r, w).

Definition bind {A B : Type} (m : M A) (k : A -> M B) : M B :=
  fun w =>
    match m w with
    | (Ok a, w') => k a w'
    | (Raise e, w') => (Raise e, w')
    end.

Declare Scope M_scope.
Delimit Scope M_scope with M.
Notation "x <- c ;; k" := (bind c (fun x => k))
  (at level 61, c at next level, right associativity) : M_scope.

(** [glob.glob('./*.xyz')] *)
Definition glob_xyz : M (list string) :=
  fun w => (Ok (map fst (xyz_files w)), w).

(** [open(name, 'r')], read as the list of the file's lines. *)
Definition open_read (name : string) : M (list string) :=
  fun w =>
    match find (fun f => String.eqb (fst f) name) (xyz_files w) with
    | Some f => (Ok (snd f), w)
    | None => (Raise FileNotFoundError, w)
    end.

(** [input(prompt)]: the next line typed, [EOFError] when there is none. *)
Definition input : M string :=
  fun w =>
    match stdin w with
    | [] => (Raise EOFError, w)
    | typed :: rest =>
        (Ok typed, mkWorld (xyz_files w) rest (combined_xyz w))
    end.

(** [open('combined.xyz', 'w')]: the file is created, or truncated. *)
Definition open_combined : M unit :=
  fun w => (Ok tt, mkWorld (xyz_files w) (stdin w) (Some "")).

(** [combined_file.write(entry)] *)
Definition write_combined (entry : string) : M unit :=
  fun w =>
    let text := match combined_xyz w with Some t => t | None => "" end in
    (Ok tt, mkWorld (xyz_files w) (stdin w) (Some (text ++ entry)%string)).

(** ** get_xyz_filenames *)

(** The loop over the lines of one candidate file.  It returns the value
    of [trajectory] when the loop is left, and [atom_count], which the
    next file's scan inherits.  [header_count] is incremented for the
    first line, and again by the comparison of that same line with
    [atom_count]. *)
Fixpoint scan_lines (first_line : bool) (header_count : Z)
  (atom_count : option string) (current_file : list string)
  : result (bool * option string) :=
  match current_file with
  | [] => Ok (false, atom_count)
  | line :: rest =>
      let '(atom_count, header_count, first_line) :=
        if first_line
        then (Some (Py.strip line), header_count + 1, false)
        else (atom_count, header_count, first_line) in
      match atom_count with
      | None => Raise UnboundLocalError
      | Some count =>
          let header_count :=
            if String.eqb (Py.strip line) count
            then header_count + 1 else header_count in
          if header_count >? 1 then Ok (true, atom_count)
          else scan_lines first_line header_count atom_count rest
      end
  end.

(** The loop over [file_list]: [trajectory], [first_line] and
    [header_count] are reset for every file. *)
Fixpoint scan_files (xyz_filename_list : list string)
  (atom_count : option string) (file_list : list string)
  : M (list string) :=
  match file_list with
  | [] => ret xyz_filename_list
  | file :: rest =>
      (current_file <- open_read file ;;
       scanned <- lift (scan_lines true 0 atom_count current_file) ;;
       let '(trajectory, atom_count) := scanned in
       let xyz_filename_list :=
         if trajectory then xyz_filename_list ++ [file]
         else xyz_filename_list in
       scan_files xyz_filename_list atom_count rest)%M
  end.

(** [sorted(file_list)] builds a sorted copy that is dropped: the files are
    scanned in the order of the listing. *)
Definition get_xyz_filenames : M (list string) :=
  (file_list <- glob_xyz ;;
   scan_files [] None file_list)%M.

(** ** request_frames *)

(** The right-hand side of [temp = ...] and of [frames = ...]: the request
    is cut at every hyphen, and each piece is cut at every hyphen again,
    converted with [int] and turned into [range(sub[0], sub[-1] + 1)]. *)
Definition expand_request (request : string) : result (list Z) :=
  (temp <- map_result
     (fun ele =>
        sub <- map_result Py.int (Py.split "-" ele) ;;
        match sub with
        | [] => Raise IndexError
        | first :: _ => Ok (Py.range first (List.last sub first + 1))
        end)
     (Py.split "-" request) ;;
   Ok (List.concat temp))%result.

(** [frames] is bound only under [if request != '']; the [print] that
    follows reads it. *)
Definition request_frames (xyz_filename : string) : M (list Z) :=
  (request <- input ;;
   frames <- lift (if String.eqb request ""
                   then Ok None
                   else (frames <- expand_request request ;;
                         Ok (Some frames))%result) ;;
   match frames with
   | Some frames => ret frames
   | None => raise UnboundLocalError
   end)%M.

(** ** multiframe_xyz_to_list *)

(** The loop over the lines of the trajectory.  When [line_count] has
    reached [section_length] the frame-specific variables are reset;
    [xyz_as_list] is not touched inside the loop.  The result is
    ([frame_contents], [line_count], [frame_count]) when the file ends. *)
Fixpoint read_frames (frame_contents : string) (line_count frame_count : Z)
  (first_line : bool) (section_length : option Z)
  (trajectory : list string) : result (string * Z * Z) :=
  match trajectory with
  | [] => Ok (frame_contents, line_count, frame_count)
  | line :: rest =>
      (section_length <-
         (if first_line
          then (atoms <- Py.int (Py.strip line) ;; Ok (atoms + 2))
          else match section_length with
               | Some len => Ok len
               | None => Raise UnboundLocalError
               end) ;;
       let first_line := false in
       let '(line_count, frame_contents, frame_count) :=
         if line_count =? section_length
         then (0, "", frame_count + 1)
         else (line_count, frame_contents, frame_count) in
       read_frames (frame_contents ++ line)%string (line_count + 1)
         frame_count first_line (Some section_length) rest)%result
  end.

(** The [with] block: the loop, then the single
    [xyz_as_list.append(frame_contents)] after it. *)
Definition collect_frames (trajectory : list string) : result (list string) :=
  (state <- read_frames "" 0 0 true None trajectory ;;
   let '(frame_contents, _, _) := state in
   Ok ([] ++ [frame_contents]))%result.

(** After the [with] block the progress message is formatted with
    [len(xyz_as_list, xyz_filename)], and only then comes [return]. *)
Definition multiframe_xyz_to_list (xyz_filename : string) : M (list string) :=
  (trajectory <- open_read xyz_filename ;;
   xyz_as_list <- lift (collect_frames trajectory) ;;
   _ <- lift (Py.len [Py.ArgList xyz_as_list; Py.ArgStr xyz_filename]) ;;
   ret xyz_as_list)%M.

(** ** combine_xyz_files *)

(** The comprehension
    [[frame for index, frame in enumerate(xyz_list)
      if index + 1 in requested_frames]]:
    one pass over the frames of the file, in file order, keeping a frame
    when its 1-based position is a member of [requested_frames].  [index]
    is the position [enumerate] gives the head of [xyz_list]. *)
Fixpoint select_frames (index : Z) (xyz_list : list string)
  (requested_frames : Py.value) : result (list string) :=
  match xyz_list with
  | [] => Ok []
  | frame :: rest =>
      (keep <- Py.contains (index + 1) requested_frames ;;
       kept <- select_frames (index + 1) rest requested_frames ;;
       Ok (if keep then frame :: kept else kept))%result
  end.

(** [if reverse_bool == True: requested_xyz_list =
    requested_xyz_list.reverse()].  [reverse_bool] is the string typed;
    [list.reverse] works in place and returns [None], which is what the
    name would then be bound to ([None] here). *)
Definition reverse_if_requested (reverse_bool : string)
  (requested_xyz_list : list string) : option (list string) :=
  if Py.str_eq_bool reverse_bool true then None
  else Some requested_xyz_list.

(** [combined_xyz_list += requested_xyz_list]: the right-hand side has to
    be iterable. *)
Definition extend (combined_xyz_list : list string)
  (requested_xyz_list : option (list string)) : result (list string) :=
  match requested_xyz_list with
  | Some frames => Ok (combined_xyz_list ++ frames)
  | None => Raise TypeError
  end.

(** The body of [for file in xyz_filename_list].  It returns the new
    [combined_xyz_list] and the [xyz_list] of this file. *)
Definition combine_file (combined_xyz_list : list string) (file : string)
  : M (list string * list string) :=
  (xyz_list <- multiframe_xyz_to_list file ;;
   frames <- request_frames file ;;
   requested_frames <- lift (Py.getitem frames (Py.TupleKey [1; 2; 3; 8])) ;;
   requested_xyz_list <- lift (select_frames 0 xyz_list requested_frames) ;;
   reverse_bool <- input ;;
   let requested_xyz_list :=
     reverse_if_requested reverse_bool requested_xyz_list in
   combined_xyz_list <- lift (extend combined_xyz_list requested_xyz_list) ;;
   ret (combined_xyz_list, xyz_list))%M.

(** The loop over the discovered files.  [xyz_list] is [None] as long as
    no iteration has bound it. *)
Fixpoint combine_files (combined_xyz_list : list string)
  (xyz_list : option (list string)) (xyz_filename_list : list string)
  : M (list string * option (list string)) :=
  match xyz_filename_list with
  | [] => ret (combined_xyz_list, xyz_list)
  | file :: rest =>
      (done <- combine_file combined_xyz_list file ;;
       let '(combined_xyz_list, xyz_list) := done in
       combine_files combined_xyz_list (Some xyz_list) rest)%M
  end.

(** [for entry in xyz_list: combined_file.write(entry)] *)
Fixpoint write_entries (entries : list string) : M unit :=
  match entries with
  | [] => ret tt
  | entry :: rest =>
      (_ <- write_combined entry ;;
       write_entries rest)%M
  end.

(** The whole script.  The output file is opened once the loop is over,
    and what is written to it is [xyz_list], the frames of the file
    processed last, not [combined_xyz_list]. *)
Definition combine_xyz_files : M unit :=
  (xyz_filename_list <- get_xyz_filenames ;;
   combined <- combine_files [] None xyz_filename_list ;;
   let '(combined_xyz_list, xyz_list) := combined in
   _ <- open_combined ;;
   xyz_list <- match xyz_list with
               | Some frames => ret frames
               | None => raise UnboundLocalError
               end ;;
   write_entries xyz_list)%M.

(** ** Test data *)

Definition nl : string := String (ascii_of_nat 10) EmptyString.

(** The lines of a frame whose header line is [count], whose comment line
    is [tag] and which has [atoms] coordinate lines. *)
Definition frame_lines (count : string) (atoms : nat) (tag : string)
  : list string :=
  ((count ++ nl)%string
   :: ("frame " ++ tag ++ nl)%string
   :: repeat ("H 0.0 0.0 0.0" ++ nl)%string atoms).

Definition two_frames : list string :=
  frame_lines "1" 1 "one" ++ frame_lines "1" 1 "two".

Definition world0 (files : list (string * list string)) (typed : list string)
  : world := mkWorld files typed None.

(** A file of five frames of two atoms, and one of three. *)
Definition file_A : list string :=
  frame_lines "2" 2 "A1" ++ frame_lines "2" 2 "A2" ++ frame_lines "2" 2 "A3"
  ++ frame_lines "2" 2 "A4" ++ frame_lines "2" 2 "A5".

Definition file_B : list string :=
  frame_lines "2" 2 "B1" ++ frame_lines "2" 2 "B2" ++ frame_lines "2" 2 "B3".

(** A file holding a single frame: its header line does not come back. *)
Definition single_frame : list string := frame_lines "2" 2 "only".

Definition world_a : world := world0 [("./a.xyz", two_frames)] [].

(** The end-to-end scenario: "1-3" unreversed from A, "1-2" reversed
    from B. *)
Definition world_AB : world :=
  world0 [("./A.xyz", file_A); ("./B.xyz", file_B)]
    ["1-3"; ""; "1-2"; "True"].

Definition world_single : world := world0 [("./single.xyz", single_frame)] [].

(** Whether a listed file has at least one line. *)
Definition has_lines (f : string * list string) : bool :=
  match snd f with
  | [] => false
  | _ :: _ => true
  end.

(** Whether a text contains a hyphen. *)
Fixpoint has_hyphen (s : string) : bool :=
  match s with
  | EmptyString => false
  | String c s' => Ascii.eqb c "-" || has_hyphen s'
  end.

(** The text of a frame of two atoms, as one block. *)
Definition block (tag : string) : string :=
  String.concat "" (frame_lines "2" 2 tag).

(** The five frames of [file_A], one block each. *)
Definition frames_A : list string :=
  [block "A1"; block "A2"; block "A3"; block "A4"; block "A5"].

(** Gathering as the specification words it: for each index of the range
    specification, in listed order, the block at that 1-based position. *)
Definition gather (xyz_list : list string) (spec : list Z) : list string :=
  map (fun i => nth (Z.to_nat (i - 1)) xyz_list "") spec.

(** The positions of the file that occur in a range specification, in
    ascending order and once each. *)
Definition requested_positions (xyz_list : list string) (spec : list Z)
  : list Z :=
  filter (fun i => existsb (Z.eqb i) spec)
    (Py.range 1 (Z.of_nat (List.length xyz_list) + 1)).

(** Whether a text contains the character [c]. *)
Fixpoint contains_char (c : ascii) (s : string) : bool :=
  match s with
  | EmptyString => false
  | String c' s' => Ascii.eqb c' c || contains_char c s'
  end.

(** * pair_scan_swapper.py, a shallow embedding

    The script reads two atom numbers and a file name, cuts the xyz file
    into frames and writes a copy in which the lines of the two atoms are
    exchanged in every frame. *)

(** ** The builtins it adds *)

Module PyList.

(** The maximal runs of non-whitespace characters of a text: the run that
    starts the text (empty when the text starts with whitespace), and the
    runs after it. *)
Fixpoint runs (s : string) : string * list string :=
  match s with
  | EmptyString => (EmptyString, [])
  | String c s' =>
      let '(run, later) := runs s' in
      if Py.isspace c
      then (EmptyString,
            match run with EmptyString => later | _ => run :: later end)
      else (String c run, later)
  end.

(** [s.split()], without argument: the words between whitespace. *)
Definition split_whitespace (s : string) : list string :=
  let '(run, later) := runs s in
  match run with EmptyString => later | _ => run :: later end.

(** The position an index designates in a list of [n] elements: a
    negative index counts from the end, and an index on neither side is
    an [IndexError]. *)
Definition position (n : nat) (i : Z) : result nat :=
  let j := if i <? 0 then i + Z.of_nat n else i in
  if (0 <=? j) && (j <? Z.of_nat n) then Ok (Z.to_nat j)
  else Raise IndexError.

(** [l[i]] *)
Definition getitem (l : list string) (i : Z) : result string :=
  (k <- position (List.length l) i ;; Ok (nth k l ""))%result.

Fixpoint replace_nth (k : nat) (v : string) (l : list string) : list string :=
  match l, k with
  | [], _ => []
  | _ :: tail, O => v :: tail
  | x :: tail, S k' => x :: replace_nth k' v tail
  end.

(** [l[i] = v], as the list after the assignment. *)
Definition setitem (l : list string) (i : Z) (v : string)
  : result (list string) :=
  (k <- position (List.length l) i ;; Ok (replace_nth k v l))%result.

(** [str(i)], as [format] renders an int. *)
Definition str (i : Z) : string := NilZero.string_of_int (Z.to_int i).

End PyList.

(** ** The world outside it *)

(** [files]: the files that can be opened for reading, by name, each as
    the lines its iteration yields.  [keyboard]: the lines the user will
    type.  [new_file]: the file this run has opened for writing, with
    its name and the text written so far. *)
Record disk : Type := mkDisk {
  files : list (string * list string);
  keyboard : list string;
  new_file : option (string * string)
}.

Definition D (A : Type) : Type := disk -> result A * disk.

Definition dret {A : Type} (a : A) : D A := fun d => (Ok a, d).

Definition dlift {A : Type} (r : result A) : D A := fun d => (r, d).

Definition dbind {A B : Type} (m : D A) (k : A -> D B) : D B :=
  fun d =>
    match m d with
    | (Ok a, d') => k a d'
    | (Raise e, d') => (Raise e, d')
    end.

Declare Scope D_scope.
Delimit Scope D_scope with D.
Notation "x <- c ;; k" := (dbind c (fun x => k))
  (at level 61, c at next level, right associativity) : D_scope.

(** [input(prompt)] *)
Definition ask : D string :=
  fun d =>
    match keyboard d with
    | [] => (Raise EOFError, d)
    | typed :: rest => (Ok typed, mkDisk (files d) rest (new_file d))
    end.

(** [open(name, "r")] *)
Definition open_for_reading (name : string) : D (list string) :=
  fun d =>
    match find (fun f => String.eqb (fst f) name) (files d) with
    | Some f => (Ok (snd f), d)
    | None => (Raise FileNotFoundError, d)
    end.

(** [open(name, "w")]: the file is created, or truncated. *)
Definition open_for_writing (name : string) : D unit :=
  fun d => (Ok tt, mkDisk (files d) (keyboard d) (Some (name, ""))).

(** [newfile.write(line)] *)
Definition write_line (line : string) : D unit :=
  fun d =>
    (Ok tt,
     mkDisk (files d) (keyboard d)
       (match new_file d with
        | Some (name, text) => Some (name, (text ++ line)%string)
        | None => None
        end)).

(** ** get_atom *)

(** The [try] catches [SystemExit] only, which [int] does not raise: the
    handler and its recursive call cannot be entered, and what [int]
    raises leaves the function. *)
Definition get_atom (which : string) : D Z :=
  (atom <- ask ;;
   dlift (Py.int atom))%D.

(** ** swap_atoms *)

(** The loop over the lines of the file.  A line of four words is a
    coordinate line; the lines before the first one are counted in
    [lines_to_skip]; once it is known, a line that is no coordinate line
    and comes when [lines_list] is longer than [lines_to_skip] is taken
    off again and opens the next frame.  The result is [lines_lists]
    after the last [append], and [lines_to_skip]. *)
Fixpoint read_blocks (lines_lists : list (list string))
  (lines_list : list string) (count_lines_to_skip : bool)
  (lines_to_skip : Z) (xyzfile : list string)
  : list (list string) * Z :=
  match xyzfile with
  | [] => (lines_lists ++ [lines_list], lines_to_skip)
  | line :: rest =>
      let lines_list := lines_list ++ [line] in
      let words := Z.of_nat (List.length (PyList.split_whitespace line)) in
      let '(count_lines_to_skip, lines_to_skip) :=
        if words =? 4 then (false, lines_to_skip)
        else if count_lines_to_skip
             then (count_lines_to_skip, lines_to_skip + 1)
             else (count_lines_to_skip, lines_to_skip) in
      if negb (words =? 4) && negb count_lines_to_skip
         && (Z.of_nat (List.length lines_list) >? lines_to_skip)
      then
        let last_line := List.last lines_list "" in
        let lines_list := List.removelast lines_list in
        read_blocks (lines_lists ++ [lines_list]) [last_line]
          count_lines_to_skip lines_to_skip rest
      else
        read_blocks lines_lists lines_list count_lines_to_skip
          lines_to_skip rest
  end.

(** The four statements that exchange the two lines of a frame. *)
Definition swap_lines (atom1 atom2 lines_to_skip : Z) (lines : list string)
  : result (list string) :=
  (atom1_line <- PyList.getitem lines (atom1 + lines_to_skip - 1) ;;
   atom2_line <- PyList.getitem lines (atom2 + lines_to_skip - 1) ;;
   lines <- PyList.setitem lines (atom2 + lines_to_skip - 1) atom1_line ;;
   lines <- PyList.setitem lines (atom1 + lines_to_skip - 1) atom2_line ;;
   Ok lines)%result.

(** [for line in lines: newfile.write(line)] *)
Fixpoint write_lines (lines : list string) : D unit :=
  match lines with
  | [] => dret tt
  | line :: rest =>
      (_ <- write_line line ;;
       write_lines rest)%D
  end.

(** [for lines in lines_lists]: exchange, then write. *)
Fixpoint write_blocks (atom1 atom2 lines_to_skip : Z)
  (lines_lists : list (list string)) : D unit :=
  match lines_lists with
  | [] => dret tt
  | lines :: rest =>
      (lines <- dlift (swap_lines atom1 atom2 lines_to_skip lines) ;;
       _ <- write_lines lines ;;
       write_blocks atom1 atom2 lines_to_skip rest)%D
  end.

(** The name of the file written. *)
Definition swapped_name (filename : string) (atom1 atom2 : Z) : string :=
  (filename ++ "_" ++ PyList.str atom1 ++ "_" ++ PyList.str atom2
   ++ ".xyz")%string.

Definition swap_atoms : D unit :=
  (atom1 <- get_atom "first" ;;
   atom2 <- get_atom "second" ;;
   filename <- ask ;;
   xyzfile <- open_for_reading (filename ++ ".xyz")%string ;;
   let '(lines_lists, lines_to_skip) := read_blocks [] [] true 0 xyzfile in
   _ <- open_for_writing (swapped_name filename atom1 atom2) ;;
   write_blocks atom1 atom2 lines_to_skip lines_lists)%D.

(** A frame with its header lines apart from its coordinate lines. *)
Definition frame_of (f : list string * list string) : list string :=
  fst f ++ snd f.

(** A frame of water, with three distinct coordinate lines. *)
Definition water (tag : string) : list string * list string :=
  ([("3" ++ nl)%string; ("water " ++ tag ++ nl)%string],
   [("O 0.0 0.0 " ++ tag ++ nl)%string;
    ("H 0.0 1.0 " ++ tag ++ nl)%string;
    ("H 1.0 0.0 " ++ tag ++ nl)%string]).

(** Whether a line has four words. *)
Definition four_words (line : string) : bool :=
  Z.of_nat (List.length (PyList.split_whitespace line)) =? 4.

(** A frame as the cut expects it: [skip] header lines, none of four
    words, then at least one coordinate line, all of four words. *)
Definition well_formed_frame (skip : nat) (f : list string * list string)
  : Prop :=
  List.length (fst f) = skip /\
  Forall (fun line => four_words line = false) (fst f) /\
  Forall (fun line => four_words line = true) (snd f) /\
  snd f <> [].

(** A directory with a trajectory of two frames of water and an empty
    file, and the answers "1", "3" and a file name. *)
Definition disk_water (filename : string) : disk :=
  mkDisk [("w.xyz", List.concat (map frame_of [water "1.5"; water "2.5"]));
          ("e.xyz", [])]
    ["1"; "3"; filename] None.

(** The list [l] with its elements at positions [i] and [j] exchanged. *)
Definition exchange (i j : nat) (l : list string) : list string :=
  PyList.replace_nth i (nth j l "") (PyList.replace_nth j (nth i l "") l).

(** * Properties *)

(** ** Builtins *)

Example int_examples :
  Py.int (" 5" ++ nl) = Ok 5 /\ Py.int "+5" = Ok 5 /\ Py.int "1_0" = Ok 10 /\
  Py.int "007" = Ok 7 /\ Py.int "_1" = Raise ValueError /\
  Py.int "1__0" = Raise ValueError /\ Py.int "5_" = Raise ValueError /\
  Py.int "" = Raise ValueError /\ Py.int "1,3" = Raise ValueError /\
  Py.int "- 3" = Raise ValueError /\ Py.int "5 5" = Raise ValueError.
Proof. repeat split; reflexivity. Qed.

Example split_examples :
  Py.split "-" "" = [""] /\ Py.split "-" "-" = [""; ""] /\
  Py.split "-" "a--b" = ["a"; ""; "b"] /\ Py.split "-" "5-3" = ["5"; "3"].
Proof. repeat split; reflexivity. Qed.

Lemma int_raises_only_ValueError (s : string) (e : exn) :
  Py.int s = Raise e -> e = ValueError.
Proof.
  unfold Py.int.
  destruct (match Py.rstrip_by _ _ with EmptyString => _ | String _ _ => _ end);
    congruence.
Qed.

Lemma len_two_arguments (a b : Py.len_arg) :
  Py.len [a; b] = Raise TypeError.
Proof. destruct a; reflexivity. Qed.

(** ** multiframe_xyz_to_list *)

(** Once the first line has fixed [section_length], the loop runs to the
    end of the file without raising. *)
Lemma read_frames_completes (trajectory : list string) :
  forall frame_contents line_count frame_count len,
  exists state,
    read_frames frame_contents line_count frame_count false (Some len)
      trajectory = Ok state.
Proof.
  induction trajectory as [|line rest IH]; intros fc lc fcnt len; simpl.
  - eexists; reflexivity.
  - destruct (lc =? len); apply IH.
Qed.

Lemma collect_frames_cases (trajectory : list string) :
  match trajectory with
  | [] => collect_frames trajectory = Ok [""]
  | line :: _ =>
      match Py.int (Py.strip line) with
      | Ok _ => exists frame, collect_frames trajectory = Ok [frame]
      | Raise _ => collect_frames trajectory = Raise ValueError
      end
  end.
Proof.
  destruct trajectory as [|line rest]; [reflexivity|].
  unfold collect_frames; simpl.
  destruct (Py.int (Py.strip line)) as [atoms|e] eqn:Hint; simpl.
  - destruct (atoms + 2); simpl;
      match goal with
      | |- context [read_frames ?fc ?lc ?n false (Some ?len) ?r] =>
          destruct (read_frames_completes r fc lc n len)
            as [[[fc' lc'] n'] ->]
      end; eexists; reflexivity.
  - apply int_raises_only_ValueError in Hint. now subst.
Qed.

(** Whatever the file holds, the list built by the [with] block has one
    element: nothing is appended inside the loop. *)
Lemma collect_frames_single (trajectory xyz_as_list : list string) :
  collect_frames trajectory = Ok xyz_as_list ->
  List.length xyz_as_list = 1%nat.
Proof.
  intros H. pose proof (collect_frames_cases trajectory) as C.
  destruct trajectory as [|line rest].
  - rewrite C in H. now inversion H.
  - destruct (Py.int (Py.strip line)).
    + destruct C as [frame C]. rewrite C in H. now inversion H.
    + congruence.
Qed.

(** The exception a call on an opened file ends with. *)
Lemma multiframe_xyz_to_list_result
  (xyz_filename : string) (w : world) (trajectory : list string) :
  open_read xyz_filename w = (Ok trajectory, w) ->
  multiframe_xyz_to_list xyz_filename w =
    (Raise (match trajectory with
            | [] => TypeError
            | line :: _ =>
                match Py.int (Py.strip line) with
                | Ok _ => TypeError
                | Raise _ => ValueError
                end
            end), w).
Proof.
  intros Hopen.
  unfold multiframe_xyz_to_list, bind. rewrite Hopen. unfold lift.
  pose proof (collect_frames_cases trajectory) as C.
  destruct trajectory as [|line rest].
  - rewrite C. reflexivity.
  - destruct (Py.int (Py.strip line)).
    + destruct C as [frame ->]. reflexivity.
    + rewrite C. reflexivity.
Qed.

(** C10.  For every input file, [multiframe_xyz_to_list] never returns
    normally: it raises before its [return] statement.  The exception is
    the [TypeError] of [len] called with two arguments in the final
    progress message, unless the first line of the file is not an integer
    literal, in which case [int] has raised [ValueError] inside the loop.
    The world is left as it was. *)
Theorem multiframe_xyz_to_list_always_raises
  (xyz_filename : string) (w : world) (trajectory : list string) :
  open_read xyz_filename w = (Ok trajectory, w) ->
  multiframe_xyz_to_list xyz_filename w =
    (Raise (match trajectory with
            | [] => TypeError
            | line :: _ =>
                match Py.int (Py.strip line) with
                | Ok _ => TypeError
                | Raise _ => ValueError
                end
            end), w)
  /\ forall xyz_as_list w',
       multiframe_xyz_to_list xyz_filename w <> (Ok xyz_as_list, w').
Proof.
  intros Hopen.
  pose proof (multiframe_xyz_to_list_result xyz_filename w trajectory Hopen)
    as E.
  split; [exact E|].
  intros xyz_as_list w' H. rewrite E in H. discriminate H.
Qed.

Lemma multiframe_xyz_to_list_always_raises_witness :
  open_read "./a.xyz" world_a = (Ok two_frames, world_a) /\
  multiframe_xyz_to_list "./a.xyz" world_a = (Raise TypeError, world_a).
Proof.
  split; [reflexivity|].
  apply (multiframe_xyz_to_list_always_raises "./a.xyz" world_a two_frames).
  reflexivity.
Defined.

(** C1, evaluated on a trajectory of two frames of one atom: the call
    raises [TypeError], and the list it had built by then holds a single
    block, the last frame, where the claim has one block per frame. *)
Theorem multiframe_xyz_to_list_two_frames :
  multiframe_xyz_to_list "./a.xyz" world_a = (Raise TypeError, world_a) /\
  collect_frames two_frames = Ok [String.concat "" (frame_lines "1" 1 "two")] /\
  String.concat "" (frame_lines "1" 1 "two") <> String.concat "" two_frames.
Proof.
  repeat split; try reflexivity. vm_compute. discriminate.
Qed.

(** ** get_xyz_filenames *)

(** The scan of one file stops at its first line, which is counted twice:
    [trajectory] is [True] exactly when the file has a line. *)
Lemma scan_lines_first_line (atom_count : option string)
  (current_file : list string) :
  exists atom_count',
    scan_lines true 0 atom_count current_file =
      Ok (match current_file with [] => false | _ :: _ => true end,
          atom_count').
Proof.
  destruct current_file as [|line rest]; simpl.
  - eexists; reflexivity.
  - rewrite String.eqb_refl. simpl. eexists; reflexivity.
Qed.

Lemma find_listed (name : string) (lines : list string) :
  forall before after : list (string * list string),
  ~ In name (map fst before) ->
  find (fun f => String.eqb (fst f) name) (before ++ (name, lines) :: after)
  = Some (name, lines).
Proof.
  induction before as [|[name' lines'] before IH]; intros after Hnot; simpl.
  - now rewrite String.eqb_refl.
  - simpl in Hnot. destruct (String.eqb_spec name' name) as [->|Hne].
    + exfalso. apply Hnot. now left.
    + apply IH. intros Hin. apply Hnot. now right.
Qed.

Lemma open_read_listed (w : world) (name : string) (lines : list string)
  (before after : list (string * list string)) :
  xyz_files w = before ++ (name, lines) :: after ->
  ~ In name (map fst before) ->
  open_read name w = (Ok lines, w).
Proof.
  intros Hfiles Hnot. unfold open_read.
  rewrite Hfiles, (find_listed name lines before after Hnot). reflexivity.
Qed.

Lemma scan_files_keeps_files_with_lines (w : world) :
  NoDup (map fst (xyz_files w)) ->
  forall (after before : list (string * list string))
         (xyz_filename_list : list string) (atom_count : option string),
  xyz_files w = before ++ after ->
  scan_files xyz_filename_list atom_count (map fst after) w =
    (Ok (xyz_filename_list ++ map fst (filter has_lines after)), w).
Proof.
  intros Hnodup.
  induction after as [|[name lines] after IH];
    intros before acc atom_count Hfiles; simpl.
  - unfold ret. now rewrite app_nil_r.
  - assert (Hnot : ~ In name (map fst before)).
    { rewrite Hfiles, map_app in Hnodup. simpl in Hnodup.
      apply NoDup_remove_2 in Hnodup. intros Hin. apply Hnodup.
      apply in_or_app. now left. }
    unfold bind at 1.
    rewrite (open_read_listed w name lines before after Hfiles Hnot).
    unfold bind at 1, lift.
    destruct (scan_lines_first_line atom_count lines) as [atom_count' ->].
    rewrite (IH (before ++ [(name, lines)])).
    + unfold has_lines at 2. simpl.
      destruct lines; simpl; [reflexivity|].
      now rewrite <- app_assoc.
    + now rewrite <- app_assoc.
Qed.

(** C3, on the code: every listed file that has at least one line is
    returned as a trajectory, single-frame files included; only files
    without any line are left out. *)
Theorem get_xyz_filenames_keeps_files_with_lines (w : world) :
  NoDup (map fst (xyz_files w)) ->
  get_xyz_filenames w = (Ok (map fst (filter has_lines (xyz_files w))), w).
Proof.
  intros Hnodup. unfold get_xyz_filenames, bind, glob_xyz.
  apply (scan_files_keeps_files_with_lines w Hnodup (xyz_files w) [] [] None).
  reflexivity.
Qed.

Lemma get_xyz_filenames_keeps_files_with_lines_witness :
  NoDup (map fst (xyz_files world_single)) /\
  get_xyz_filenames world_single = (Ok ["./single.xyz"], world_single).
Proof.
  assert (H : NoDup (map fst (xyz_files world_single))).
  { simpl. constructor; [intros []|constructor]. }
  split; [exact H|].
  exact (get_xyz_filenames_keeps_files_with_lines world_single H).
Defined.

(** ** request_frames *)

Lemma split_no_hyphen (s : string) :
  has_hyphen s = false -> Py.split "-" s = [s].
Proof.
  induction s as [|c s IH]; simpl; [reflexivity|].
  intros H. apply orb_false_iff in H as [Hc Hs].
  rewrite Hc, (IH Hs). reflexivity.
Qed.

Lemma split_at_hyphen (A B : string) :
  has_hyphen A = false ->
  Py.split "-" (A ++ String "-" B) = A :: Py.split "-" B.
Proof.
  induction A as [|c A IH]; simpl; [reflexivity|].
  intros H. apply orb_false_iff in H as [Hc HA].
  rewrite Hc, (IH HA). reflexivity.
Qed.

Lemma range_one (a : Z) : Py.range a (a + 1) = [a].
Proof.
  unfold Py.range. replace (a + 1 - a) with 1 by lia. simpl.
  now rewrite Z.add_0_r.
Qed.

(** A piece without hyphen that [int] accepts contributes its value, once:
    the inner [split] finds nothing to cut, so [sub] has one element and
    the range built from it has one element too. *)
Lemma expand_request_pieces (pieces : list string) (values : list Z) :
  Forall2 (fun piece v => has_hyphen piece = false /\ Py.int piece = Ok v)
    pieces values ->
  map_result
    (fun ele =>
       (sub <- map_result Py.int (Py.split "-" ele) ;;
        match sub with
        | [] => Raise IndexError
        | first :: _ => Ok (Py.range first (List.last sub first + 1))
        end)%result) pieces
  = Ok (map (fun v => [v]) values).
Proof.
  induction 1 as [|piece v pieces values [Hh Hi] _ IH]; simpl;
    [reflexivity|].
  rewrite (split_no_hyphen piece Hh). simpl. rewrite Hi. simpl.
  rewrite range_one, IH. reflexivity.
Qed.

(** Two hyphen-free integer literals around a hyphen are read as two
    separate frames, in the order typed. *)
Lemma request_frames_pair (xyz_filename A B : string) (a b : Z)
  (files : list (string * list string)) (rest : list string)
  (out : option string) :
  has_hyphen A = false -> has_hyphen B = false ->
  Py.int A = Ok a -> Py.int B = Ok b ->
  request_frames xyz_filename
    (mkWorld files ((A ++ "-" ++ B)%string :: rest) out)
  = (Ok [a; b], mkWorld files rest out).
Proof.
  intros HA HB Ha Hb.
  unfold request_frames, bind, input, lift; simpl.
  assert (Hne : String.eqb (A ++ String "-" B) "" = false)
    by (destruct A; reflexivity).
  rewrite Hne. unfold expand_request.
  rewrite (split_at_hyphen A B HA), (split_no_hyphen B HB).
  rewrite (expand_request_pieces [A; B] [a; b]).
  - reflexivity.
  - repeat constructor; assumption.
Qed.

(** C4, evaluated on the two expressions of the claim: the request is cut
    at hyphens, never at commas, so "1,3-5,9" raises [ValueError] (the
    piece "1,3" is no integer) and "2-2" gives frame 2 twice. *)
Theorem request_frames_claimed_examples :
  request_frames "./A.xyz" (world0 [] ["1,3-5,9"])
    = (Raise ValueError, world0 [] []) /\
  request_frames "./A.xyz" (world0 [] ["2-2"]) = (Ok [2; 2], world0 [] []).
Proof. split; reflexivity. Qed.

(** C8.  On the empty expression the call raises [UnboundLocalError]:
    [frames] is read by the message that follows the skipped branch. *)
Theorem request_frames_empty (xyz_filename : string)
  (files : list (string * list string)) (rest : list string)
  (out : option string) :
  request_frames xyz_filename (mkWorld files ("" :: rest) out)
  = (Raise UnboundLocalError, mkWorld files rest out).
Proof. reflexivity. Qed.

(** C7 fails on "5-3": the call returns a frame list. *)
Lemma request_frames_5_3_no_error :
  request_frames "./A.xyz" (world0 [] ["5-3"]) = (Ok [5; 3], world0 [] []) /\
  fst (request_frames "./A.xyz" (world0 [] ["5-3"])) <> Raise RangeParseError.
Proof. split; [reflexivity|]. vm_compute. discriminate. Qed.

(** C7, amended.  For a range token A-B with A > B the parser raises no
    error: there is no check on the order of the bounds, the expression is
    accepted and a frame list is returned. *)
Theorem request_frames_descending_accepted (xyz_filename A B : string)
  (a b : Z) (files : list (string * list string)) (rest : list string)
  (out : option string) :
  has_hyphen A = false -> has_hyphen B = false ->
  Py.int A = Ok a -> Py.int B = Ok b ->
  b < a ->
  exists frames,
    request_frames xyz_filename
      (mkWorld files ((A ++ "-" ++ B)%string :: rest) out)
    = (Ok frames, mkWorld files rest out).
Proof.
  intros HA HB Ha Hb _. exists [a; b].
  now apply request_frames_pair.
Qed.

Lemma request_frames_descending_accepted_witness :
  has_hyphen "5" = false /\ has_hyphen "3" = false /\
  Py.int "5" = Ok 5 /\ Py.int "3" = Ok 3 /\ 3 < 5 /\
  exists frames,
    request_frames "./A.xyz" (mkWorld [] ["5-3"] None)
    = (Ok frames, mkWorld [] [] None).
Proof.
  repeat (split; [reflexivity|]).
  apply (request_frames_descending_accepted "./A.xyz" "5" "3" 5 3 [] [] None);
    reflexivity.
Defined.

(** ** The frame selection of combine_xyz_files *)

Lemma range_empty (a b : Z) : b <= a -> Py.range a b = [].
Proof.
  intros H. unfold Py.range. now replace (Z.to_nat (b - a)) with 0%nat by lia.
Qed.

Lemma range_first (a b : Z) :
  a < b -> Py.range a b = a :: Py.range (a + 1) b.
Proof.
  intros H. unfold Py.range.
  replace (Z.to_nat (b - a)) with (S (Z.to_nat (b - (a + 1)))) by lia.
  simpl. rewrite Z.add_0_r. f_equal.
  rewrite <- seq_shift, map_map.
  apply map_ext. intros i. lia.
Qed.

Lemma in_range (a b j : Z) : In j (Py.range a b) <-> a <= j < b.
Proof.
  unfold Py.range. rewrite in_map_iff. split.
  - intros [i [<- Hi]]. apply in_seq in Hi. lia.
  - intros H. exists (Z.to_nat (j - a)). split; [lia|].
    apply in_seq. lia.
Qed.

(** The comprehension on a list of requested frames, at any offset of
    [enumerate]: the frames at the requested positions, by ascending
    position. *)
Lemma select_frames_from (spec : list Z) (xyz_list : list string) :
  forall index : Z,
  select_frames index xyz_list (Py.VList spec) =
    Ok (map (fun i => nth (Z.to_nat (i - index - 1)) xyz_list "")
          (filter (fun i => existsb (Z.eqb i) spec)
             (Py.range (index + 1)
                (index + 1 + Z.of_nat (List.length xyz_list))))).
Proof.
  induction xyz_list as [|frame rest IH]; intros index.
  - simpl. now rewrite range_empty by lia.
  - cbn [select_frames Py.contains rbind]. rewrite IH.
    rewrite (range_first (index + 1)) by (simpl List.length; lia).
    replace (index + 1 + Z.of_nat (List.length (frame :: rest)))
      with (index + 1 + 1 + Z.of_nat (List.length rest))
      by (simpl List.length; lia).
    assert (Htail :
      map (fun i => nth (Z.to_nat (i - (index + 1) - 1)) rest "")
        (filter (fun i => existsb (Z.eqb i) spec)
           (Py.range (index + 1 + 1)
              (index + 1 + 1 + Z.of_nat (List.length rest))))
      = map (fun i => nth (Z.to_nat (i - index - 1)) (frame :: rest) "")
          (filter (fun i => existsb (Z.eqb i) spec)
             (Py.range (index + 1 + 1)
                (index + 1 + 1 + Z.of_nat (List.length rest))))).
    { apply map_ext_in. intros i Hi.
      apply filter_In in Hi as [Hi _]. apply in_range in Hi.
      replace (Z.to_nat (i - index - 1))
        with (S (Z.to_nat (i - (index + 1) - 1))) by lia.
      reflexivity. }
    rewrite Htail. cbn [filter].
    destruct (existsb (Z.eqb (index + 1)) spec); [|reflexivity].
    cbn [map]. replace (index + 1 - index - 1) with 0 by lia.
    reflexivity.
Qed.

Lemma select_frames_positions (xyz_list : list string) (spec : list Z) :
  select_frames 0 xyz_list (Py.VList spec) =
    Ok (gather xyz_list (requested_positions xyz_list spec)).
Proof.
  rewrite select_frames_from. unfold gather, requested_positions.
  replace (0 + 1 + Z.of_nat (List.length xyz_list))
    with (Z.of_nat (List.length xyz_list) + 1) by lia.
  change (0 + 1) with 1. f_equal.
  apply map_ext. intros i. now rewrite Z.sub_0_r.
Qed.

(** Two range specifications that agree on which positions of the file
    they contain select the same frames. *)
Lemma requested_positions_ext (xyz_list : list string) (spec spec' : list Z) :
  (forall i, 1 <= i <= Z.of_nat (List.length xyz_list) ->
             existsb (Z.eqb i) spec = existsb (Z.eqb i) spec') ->
  requested_positions xyz_list spec = requested_positions xyz_list spec'.
Proof.
  intros H. unfold requested_positions. apply filter_ext_in.
  intros i Hi. apply in_range in Hi. apply H. lia.
Qed.

Lemma existsb_above (lo : Z) (spec : list Z) :
  Forall (fun i => lo < i) spec -> existsb (Z.eqb lo) spec = false.
Proof.
  induction 1 as [|x xs Hx _ IH]; simpl; [reflexivity|].
  rewrite IH, orb_false_r. apply Z.eqb_neq. lia.
Qed.

(** Filtering an interval by membership in a strictly ascending list of
    elements of that interval gives the list back. *)
Lemma filter_range_sorted (n : nat) :
  forall (lo : Z) (spec : list Z),
  StronglySorted Z.lt spec ->
  Forall (fun i => lo <= i < lo + Z.of_nat n) spec ->
  filter (fun i => existsb (Z.eqb i) spec) (Py.range lo (lo + Z.of_nat n))
  = spec.
Proof.
  induction n as [|n IH]; intros lo spec Hsorted Hin.
  - rewrite range_empty by lia.
    destruct spec as [|x xs]; [reflexivity|].
    apply Forall_inv in Hin. lia.
  - rewrite range_first by lia.
    replace (lo + Z.of_nat (S n)) with (lo + 1 + Z.of_nat n) in * by lia.
    cbn [filter].
    destruct spec as [|x xs].
    + simpl. exact (IH (lo + 1) [] (SSorted_nil _) (Forall_nil _)).
    + apply StronglySorted_inv in Hsorted as [Hxs Hx].
      pose proof (Forall_inv Hin) as Hxin. cbv beta in Hxin.
      pose proof (Forall_inv_tail Hin) as Hxsin.
      destruct (Z.eq_dec x lo) as [->|Hne].
      * cbn [existsb]. rewrite Z.eqb_refl. cbn [orb]. f_equal.
        transitivity
          (filter (fun i => existsb (Z.eqb i) xs)
             (Py.range (lo + 1) (lo + 1 + Z.of_nat n))).
        -- apply filter_ext_in. intros j Hj. apply in_range in Hj.
           cbn [existsb]. replace (j =? lo) with false
             by (symmetry; apply Z.eqb_neq; lia).
           reflexivity.
        -- apply (IH (lo + 1) xs Hxs).
           rewrite Forall_forall in *. intros j Hj.
           specialize (Hx j Hj). specialize (Hxsin j Hj). lia.
      * assert (Habove : Forall (fun i => lo < i) (x :: xs)).
        { constructor; [lia|]. rewrite Forall_forall in *.
          intros j Hj. specialize (Hx j Hj). lia. }
        rewrite (existsb_above lo (x :: xs) Habove).
        apply IH; [now constructor|].
        rewrite Forall_forall in *. intros j Hj.
        specialize (Habove j Hj). specialize (Hin j Hj). lia.
Qed.

(** C5 fails as stated.  Requesting [3, 1, 1] from the five frames of A
    gives frames 1 and 3, in file order and once each, where the claim
    has 3, 1, 1; and with the reversal requested ("True" typed) the
    selection of [1, 3, 4, 5] is left in ascending order. *)
Lemma select_frames_file_order_not_listed_order :
  select_frames 0 frames_A (Py.VList [3; 1; 1])
    = Ok [block "A1"; block "A3"] /\
  select_frames 0 frames_A (Py.VList [3; 1; 1])
    <> Ok [block "A3"; block "A1"; block "A1"] /\
  (requested_xyz_list <- select_frames 0 frames_A (Py.VList [1; 3; 4; 5]) ;;
   Ok (reverse_if_requested "True" requested_xyz_list))%result
    <> Ok (Some [block "A5"; block "A4"; block "A3"; block "A1"]).
Proof.
  repeat split; try reflexivity; vm_compute; discriminate.
Qed.

(** C5, amended.  For every frame list and every range specification the
    selection is the list of the frames whose 1-based position occurs in
    the specification, by ascending position and once each; when the
    specification is strictly ascending and within the file this is the
    listed order, as for [1, 3, 4, 5] out of five frames. *)
Theorem select_frames_by_position (xyz_list : list string) (spec : list Z) :
  select_frames 0 xyz_list (Py.VList spec)
    = Ok (gather xyz_list (requested_positions xyz_list spec)) /\
  (StronglySorted Z.lt spec ->
   Forall (fun i => 1 <= i <= Z.of_nat (List.length xyz_list)) spec ->
   select_frames 0 xyz_list (Py.VList spec) = Ok (gather xyz_list spec)).
Proof.
  split; [apply select_frames_positions|].
  intros Hsorted Hin. rewrite select_frames_positions.
  unfold requested_positions.
  replace (Z.of_nat (List.length xyz_list) + 1)
    with (1 + Z.of_nat (List.length xyz_list)) by lia.
  rewrite filter_range_sorted; [reflexivity|assumption|].
  apply (Forall_impl _ (P := fun i => 1 <= i <= Z.of_nat (List.length xyz_list)));
    [|assumption].
  intros i Hi. lia.
Qed.

Lemma select_frames_by_position_witness :
  StronglySorted Z.lt [1; 3; 4; 5] /\
  Forall (fun i => 1 <= i <= Z.of_nat (List.length frames_A)) [1; 3; 4; 5] /\
  select_frames 0 frames_A (Py.VList [1; 3; 4; 5])
    = Ok [block "A1"; block "A3"; block "A4"; block "A5"].
Proof.
  assert (Hsorted : StronglySorted Z.lt [1; 3; 4; 5]).
  { repeat (constructor; [|repeat constructor; reflexivity]). constructor. }
  assert (Hin : Forall (fun i => 1 <= i <= Z.of_nat (List.length frames_A))
                  [1; 3; 4; 5]).
  { repeat constructor; simpl; lia. }
  split; [exact Hsorted|]. split; [exact Hin|].
  exact (proj2 (select_frames_by_position frames_A [1; 3; 4; 5]) Hsorted Hin).
Defined.

(** C6 fails as stated: requesting frame 6 of the five frames of A raises
    nothing; the selection is empty. *)
Lemma select_frames_6_of_5_no_error :
  select_frames 0 frames_A (Py.VList [6]) = Ok [] /\
  select_frames 0 frames_A (Py.VList [6]) <> Raise IndexError.
Proof. split; [reflexivity|]. vm_compute. discriminate. Qed.

(** C6, amended.  A requested index outside [1, number of frames] raises
    no exception and is not clamped to a neighbouring frame: it is
    dropped, the selection being the one of the specification without
    it; index 6 alone out of five frames selects nothing. *)
Theorem select_frames_drops_out_of_range (xyz_list : list string)
  (before after : list Z) (i : Z) :
  i < 1 \/ Z.of_nat (List.length xyz_list) < i ->
  select_frames 0 xyz_list (Py.VList (before ++ i :: after))
    = select_frames 0 xyz_list (Py.VList (before ++ after)) /\
  (exists kept,
     select_frames 0 xyz_list (Py.VList (before ++ i :: after)) = Ok kept) /\
  select_frames 0 xyz_list (Py.VList [i]) = Ok [].
Proof.
  intros Hout.
  assert (Hdrop : forall before after,
    requested_positions xyz_list (before ++ i :: after)
    = requested_positions xyz_list (before ++ after)).
  { intros b a. apply requested_positions_ext. intros j Hj.
    rewrite !existsb_app. cbn [existsb].
    replace (j =? i) with false by (symmetry; apply Z.eqb_neq; lia).
    reflexivity. }
  repeat split.
  - now rewrite !select_frames_positions, Hdrop.
  - eexists. apply select_frames_positions.
  - rewrite select_frames_positions.
    change [i] with ([] ++ i :: []). rewrite (Hdrop [] []).
    rewrite <- select_frames_positions. cbn [app].
    clear. generalize 0. induction xyz_list as [|frame rest IH]; intros k.
    + reflexivity.
    + cbn [select_frames Py.contains existsb rbind]. now rewrite IH.
Qed.

Lemma select_frames_drops_out_of_range_witness :
  (6 < 1 \/ Z.of_nat (List.length frames_A) < 6) /\
  select_frames 0 frames_A (Py.VList ([1] ++ 6 :: [3]))
    = select_frames 0 frames_A (Py.VList ([1] ++ [3])).
Proof.
  assert (Hout : 6 < 1 \/ Z.of_nat (List.length frames_A) < 6)
    by (right; simpl; lia).
  split; [exact Hout|].
  exact (proj1 (select_frames_drops_out_of_range frames_A [1] [3] 6 Hout)).
Defined.

(** ** combine_xyz_files *)

Lemma find_by_name (name : string) (files : list (string * list string)) :
  In name (map fst files) ->
  exists f,
    find (fun f => String.eqb (fst f) name) files = Some f /\ In f files.
Proof.
  induction files as [|[name' lines'] files IH]; simpl; [intros []|].
  intros Hin. destruct (String.eqb_spec name' name) as [->|Hne].
  - eexists; split; [reflexivity|now left].
  - destruct Hin as [Heq|Hin]; [contradiction|].
    destruct (IH Hin) as [f [Hfind Hf]]. exists f. split; [exact Hfind|].
    now right.
Qed.

Lemma open_read_by_name (w : world) (name : string) :
  In name (map fst (xyz_files w)) ->
  exists f, In f (xyz_files w) /\ open_read name w = (Ok (snd f), w).
Proof.
  intros Hin. destruct (find_by_name name (xyz_files w) Hin) as [f [Hfind Hf]].
  exists f. split; [exact Hf|]. unfold open_read. now rewrite Hfind.
Qed.

(** When no listed file has a line, no trajectory is discovered. *)
Lemma scan_files_no_lines (w : world) :
  Forall (fun f => snd f = []) (xyz_files w) ->
  forall (file_list xyz_filename_list : list string)
         (atom_count : option string),
  incl file_list (map fst (xyz_files w)) ->
  scan_files xyz_filename_list atom_count file_list w
  = (Ok xyz_filename_list, w).
Proof.
  intros Hempty.
  induction file_list as [|file rest IH]; intros acc atom_count Hincl.
  - reflexivity.
  - destruct (open_read_by_name w file) as [f [Hf Hopen]].
    { apply Hincl. now left. }
    rewrite Forall_forall in Hempty. rewrite (Hempty f Hf) in Hopen.
    cbn [scan_files]. unfold bind at 1. rewrite Hopen.
    unfold bind at 1, lift. cbn [scan_lines].
    apply IH. intros n Hn. apply Hincl. now right.
Qed.

(** With no trajectory discovered the loop is skipped, [combined.xyz] is
    opened, and [xyz_list] is read without having been bound. *)
Lemma combine_xyz_files_no_trajectory (w : world) :
  Forall (fun f => snd f = []) (xyz_files w) ->
  combine_xyz_files w
  = (Raise UnboundLocalError, mkWorld (xyz_files w) (stdin w) (Some "")).
Proof.
  intros Hempty. unfold combine_xyz_files, get_xyz_filenames.
  unfold bind at 1. unfold bind at 1, glob_xyz.
  rewrite (scan_files_no_lines w Hempty) by apply incl_refl.
  reflexivity.
Qed.

(** As soon as a trajectory is discovered, the run stops in the parse of
    the first one: nothing is asked, nothing is written. *)
Lemma combine_xyz_files_stops_at_first_trajectory (w : world) :
  NoDup (map fst (xyz_files w)) ->
  (exists f, In f (xyz_files w) /\ has_lines f = true) ->
  exists e,
    combine_xyz_files w = (Raise e, w) /\ (e = TypeError \/ e = ValueError).
Proof.
  intros Hnodup [f [Hf Hlines]].
  unfold combine_xyz_files, get_xyz_filenames.
  unfold bind at 1. unfold bind at 1, glob_xyz.
  rewrite (scan_files_keeps_files_with_lines w Hnodup (xyz_files w) [] [] None)
    by reflexivity.
  cbn [app].
  destruct (filter has_lines (xyz_files w)) as [|g found] eqn:Hfound.
  - exfalso. assert (Hin : In f (filter has_lines (xyz_files w)))
      by (apply filter_In; now split).
    now rewrite Hfound in Hin.
  - assert (Hg : In (fst g) (map fst (xyz_files w))).
    { apply in_map. assert (Hin : In g (filter has_lines (xyz_files w)))
        by (rewrite Hfound; now left).
      now apply filter_In in Hin. }
    destruct (open_read_by_name w (fst g) Hg) as [g' [_ Hopen]].
    pose proof (multiframe_xyz_to_list_result (fst g) w (snd g') Hopen) as E.
    cbn [map combine_files]. unfold combine_file.
    unfold bind at 1. unfold bind at 1. unfold bind at 1. rewrite E.
    eexists. split; [reflexivity|].
    destruct (snd g') as [|line ?]; [now left|].
    destruct (Py.int (Py.strip line)); [now left|now right].
Qed.

(** C2, evaluated on the end-to-end scenario (frames 1-3 of A unreversed,
    then frames 1-2 of B reversed): the run raises [TypeError] in the
    parse of A, before any question is asked, and [combined.xyz] is never
    opened, where the claim has the five blocks A1 A2 A3 B2 B1 written. *)
Theorem combine_xyz_files_end_to_end :
  combine_xyz_files world_AB = (Raise TypeError, world_AB) /\
  combined_xyz (snd (combine_xyz_files world_AB)) = None /\
  combined_xyz (snd (combine_xyz_files world_AB))
    <> Some (String.concat ""
               [block "A1"; block "A2"; block "A3"; block "B2"; block "B1"]).
Proof.
  repeat split; try reflexivity. vm_compute. discriminate.
Qed.

(** C9 fails as stated: in a directory without any xyz file no frame is
    selected, the exception raised is [UnboundLocalError], and
    [combined.xyz] has been created by then. *)
Lemma combine_xyz_files_empty_directory :
  combine_xyz_files (world0 [] [])
    = (Raise UnboundLocalError, mkWorld [] [] (Some "")) /\
  fst (combine_xyz_files (world0 [] [])) <> Raise EmptyCombinationError /\
  combined_xyz (snd (combine_xyz_files (world0 [] []))) <> None.
Proof.
  repeat split; try reflexivity; vm_compute; discriminate.
Qed.

(** C9, amended.  When no trajectory is discovered, so that no frame is
    selected, the run does not fail with [EmptyCombinationError], and
    [combined.xyz] is opened for writing all the same: it is left
    created, with no frame in it. *)
Theorem combine_xyz_files_no_empty_check (w : world) :
  Forall (fun f => snd f = []) (xyz_files w) ->
  fst (combine_xyz_files w) <> Raise EmptyCombinationError /\
  combined_xyz (snd (combine_xyz_files w)) = Some "".
Proof.
  intros Hempty. rewrite (combine_xyz_files_no_trajectory w Hempty).
  split; [discriminate|reflexivity].
Qed.

Lemma combine_xyz_files_no_empty_check_witness :
  Forall (fun f : string * list string => snd f = [])
    (xyz_files (world0 [("./empty.xyz", [])] ["1"])) /\
  combined_xyz (snd (combine_xyz_files (world0 [("./empty.xyz", [])] ["1"])))
    = Some "".
Proof.
  assert (Hempty : Forall (fun f : string * list string => snd f = [])
                     (xyz_files (world0 [("./empty.xyz", [])] ["1"])))
    by (repeat constructor).
  split; [exact Hempty|].
  exact (proj2 (combine_xyz_files_no_empty_check _ Hempty)).
Defined.

(** * Further properties of combine_xyz_files.py *)

(** ** get_xyz_filenames, on any listing *)



(** ** request_frames, on any expression *)

Lemma split_pieces_no_hyphen (s : string) :
  Forall (fun piece => has_hyphen piece = false) (Py.split "-" s).
Proof.
  induction s as [|c s IH]; simpl.
  - now constructor.
  - destruct (Ascii.eqb c "-") eqn:Hc.
    + now constructor.
    + destruct (Py.split "-" s) as [|piece pieces].
      * constructor; [simpl; now rewrite Hc|constructor].
      * apply Forall_cons_iff in IH as [Hpiece Hpieces].
        constructor; [simpl; now rewrite Hc, Hpiece|exact Hpieces].
Qed.

(** On hyphen-free pieces the ranges built are singletons: the list
    flattened from them is the list of the pieces' integer values. *)
Lemma expand_pieces_as_ints (pieces : list string) :
  Forall (fun piece => has_hyphen piece = false) pieces ->
  (temp <- map_result
     (fun ele =>
        sub <- map_result Py.int (Py.split "-" ele) ;;
        match sub with
        | [] => Raise IndexError
        | first :: _ => Ok (Py.range first (List.last sub first + 1))
        end) pieces ;;
   Ok (List.concat temp))%result
  = map_result Py.int pieces.
Proof.
  induction 1 as [|piece pieces Hpiece _ IH]; [reflexivity|].
  cbn [map_result]. rewrite (split_no_hyphen piece Hpiece).
  cbn [map_result]. destruct (Py.int piece) as [v|e]; [|reflexivity].
  cbn [rbind List.last]. rewrite range_one. rewrite <- IH.
  destruct (map_result _ pieces); reflexivity.
Qed.

Lemma expand_request_as_ints (request : string) :
  expand_request request = map_result Py.int (Py.split "-" request).
Proof.
  unfold expand_request. apply expand_pieces_as_ints.
  apply split_pieces_no_hyphen.
Qed.

Lemma request_frames_nonempty_request (xyz_filename request : string)
  (files : list (string * list string)) (rest : list string)
  (out : option string) :
  request <> "" ->
  request_frames xyz_filename (mkWorld files (request :: rest) out)
  = (map_result Py.int (Py.split "-" request), mkWorld files rest out).
Proof.
  intros Hne. unfold request_frames, bind, input, lift; simpl.
  destruct (String.eqb_spec request "") as [->|_]; [contradiction|].
  rewrite expand_request_as_ints.
  destruct (map_result Py.int (Py.split "-" request)); reflexivity.
Qed.

(** X2.  On a non-empty expression the frames returned are the integer
    values of the pieces between hyphens, in the order typed: a hyphen
    separates two single frames and never spans a range, and the first
    piece that [int] rejects ends the call with its exception. *)
Theorem request_frames_hyphen_separates (xyz_filename request : string)
  (files : list (string * list string)) (rest : list string)
  (out : option string) :
  request <> "" ->
  request_frames xyz_filename (mkWorld files (request :: rest) out)
  = (map_result Py.int (Py.split "-" request), mkWorld files rest out).
Proof. apply request_frames_nonempty_request. Qed.

Lemma request_frames_hyphen_separates_witness :
  "1-3" <> "" /\
  request_frames "./A.xyz" (mkWorld [] ["1-3"; "True"] None)
  = (Ok [1; 3], mkWorld [] ["True"] None).
Proof.
  assert (Hne : "1-3" <> "") by discriminate.
  split; [exact Hne|].
  exact (request_frames_hyphen_separates "./A.xyz" "1-3" [] ["True"] None Hne).
Defined.

Lemma map_result_length {A B : Type} (f : A -> result B) (xs : list A)
  (ys : list B) :
  map_result f xs = Ok ys -> List.length ys = List.length xs.
Proof.
  revert ys. induction xs as [|x xs IH]; intros ys; simpl.
  - intros H. now inversion H.
  - destruct (f x); [|discriminate]. simpl.
    destruct (map_result f xs) as [ys'|]; [|discriminate]. simpl.
    intros H. inversion H. simpl. f_equal. now apply IH.
Qed.

Lemma split_not_empty (sep : ascii) (s : string) : Py.split sep s <> [].
Proof.
  destruct s as [|c s]; simpl; [discriminate|].
  destruct (Ascii.eqb c sep); [discriminate|].
  destruct (Py.split sep s); discriminate.
Qed.

(** X3.  Whenever [request_frames] returns, it has read one line, and the
    list it returns has one frame per hyphen-separated piece of that
    line: it is never empty. *)
Theorem request_frames_never_empty (xyz_filename : string) (w w' : world)
  (frames : list Z) :
  request_frames xyz_filename w = (Ok frames, w') ->
  frames <> [] /\
  exists request,
    stdin w = request :: stdin w' /\
    List.length frames = List.length (Py.split "-" request).
Proof.
  destruct w as [files typed out]. destruct typed as [|request rest].
  - discriminate.
  - destruct (String.eqb_spec request "") as [->|Hne]; [discriminate|].
    rewrite (request_frames_nonempty_request _ _ _ _ _ Hne).
    intros H. inversion H as [[Hmap Hw]]. subst w'.
    apply map_result_length in Hmap.
    split.
    + intros ->. simpl in Hmap. symmetry in Hmap.
      apply length_zero_iff_nil in Hmap.
      now apply split_not_empty in Hmap.
    + exists request. now split.
Qed.

Lemma request_frames_never_empty_witness :
  request_frames "./A.xyz" (mkWorld [] ["4-2-9"] None)
    = (Ok [4; 2; 9], mkWorld [] [] None) /\
  [4; 2; 9] <> [].
Proof.
  assert (H : request_frames "./A.xyz" (mkWorld [] ["4-2-9"] None)
              = (Ok [4; 2; 9], mkWorld [] [] None)) by reflexivity.
  split; [exact H|].
  exact (proj1 (request_frames_never_empty _ _ _ _ H)).
Defined.

Lemma contains_char_lstrip (p : ascii -> bool) (c : ascii) (s : string) :
  p c = false -> contains_char c s = true ->
  contains_char c (Py.lstrip_by p s) = true.
Proof.
  intros Hp. induction s as [|c' s IH]; simpl; [discriminate|].
  intros H. destruct (p c') eqn:Hc'; [|exact H].
  apply orb_true_iff in H as [H|H]; [|now apply IH].
  apply Ascii.eqb_eq in H. congruence.
Qed.

Lemma contains_char_rstrip (p : ascii -> bool) (c : ascii) (s : string) :
  p c = false -> contains_char c s = true ->
  contains_char c (Py.rstrip_by p s) = true.
Proof.
  intros Hp. induction s as [|c' s IH]; simpl; [discriminate|].
  intros H. apply orb_true_iff in H as [H|H].
  - apply Ascii.eqb_eq in H. subst c'. rewrite Hp.
    destruct (Py.rstrip_by p s); simpl; now rewrite Ascii.eqb_refl.
  - specialize (IH H). destruct (Py.rstrip_by p s) as [|a r]; [discriminate|].
    change (Ascii.eqb c' c || contains_char c (String a r) = true).
    rewrite IH. apply orb_true_r.
Qed.

(** A character that is neither a digit nor the underscore makes the
    digits of a literal invalid, wherever it stands. *)
Lemma int_digits_rejects (c : ascii) :
  Py.digit_of c = None -> Ascii.eqb c "_" = false ->
  forall (s : string) (acc : Z) (after_digit : bool),
  contains_char c s = true -> Py.int_digits acc after_digit s = None.
Proof.
  intros Hdigit Hunder. induction s as [|c' s IH]; intros acc b; simpl;
    [discriminate|].
  intros H. destruct (Ascii.eqb_spec c' c) as [->|Hne].
  - now rewrite Hdigit, Hunder.
  - simpl in H. destruct (Py.digit_of c'); [now apply IH|].
    destruct (Ascii.eqb c' "_" && b); [now apply IH|reflexivity].
Qed.

Lemma int_rejects_comma (s : string) :
  contains_char "," s = true -> Py.int s = Raise ValueError.
Proof.
  intros H. unfold Py.int.
  apply (contains_char_lstrip Py.isspace_c) in H; [|reflexivity].
  apply (contains_char_rstrip Py.isspace_c) in H; [|reflexivity].
  pose proof (int_digits_rejects "," eq_refl eq_refl) as R.
  destruct (Py.rstrip_by _ _) as [|c t]; [discriminate|].
  destruct (Ascii.eqb_spec c "+") as [->|Hplus].
  - simpl in H. now rewrite (R t 0 false H).
  - destruct (Ascii.eqb_spec c "-") as [->|Hminus].
    + simpl in H. now rewrite (R t 0 false H).
    + rewrite (R (String c t) 0 false H).
      destruct c as [[] [] [] [] [] [] [] []]; try reflexivity;
        congruence.
Qed.

Lemma split_keeps_char (sep c : ascii) (s : string) :
  Ascii.eqb c sep = false -> contains_char c s = true ->
  Exists (fun piece => contains_char c piece = true) (Py.split sep s).
Proof.
  intros Hsep. induction s as [|c' s IH]; simpl; [discriminate|].
  intros H. destruct (Ascii.eqb_spec c' sep) as [->|Hne].
  - rewrite Ascii.eqb_sym, Hsep in H. simpl in H.
    apply Exists_cons_tl. now apply IH.
  - apply orb_true_iff in H as [H|H].
    + destruct (Py.split sep s); apply Exists_cons_hd; simpl;
        now rewrite H.
    + specialize (IH H). destruct (Py.split sep s) as [|piece pieces].
      * inversion IH.
      * apply Exists_cons in IH as [IH|IH].
        -- apply Exists_cons_hd. simpl. rewrite IH. apply orb_true_r.
        -- now apply Exists_cons_tl.
Qed.

Lemma map_int_raises (pieces : list string) :
  Exists (fun piece => Py.int piece = Raise ValueError) pieces ->
  map_result Py.int pieces = Raise ValueError.
Proof.
  induction 1 as [piece pieces Hpiece|piece pieces _ IH]; simpl.
  - now rewrite Hpiece.
  - destruct (Py.int piece) eqn:Hint; simpl.
    + now rewrite IH.
    + apply int_raises_only_ValueError in Hint. now subst.
Qed.

(** X4.  An expression with a comma in it, such as the "1,3-5" the prompt
    suggests, always ends in [ValueError]: the comma is never a
    separator, and the piece that holds it is no integer. *)
Theorem request_frames_comma_ValueError (xyz_filename request : string)
  (files : list (string * list string)) (rest : list string)
  (out : option string) :
  contains_char "," request = true ->
  request_frames xyz_filename (mkWorld files (request :: rest) out)
  = (Raise ValueError, mkWorld files rest out).
Proof.
  intros Hcomma.
  assert (Hne : request <> "") by (intros ->; discriminate).
  rewrite (request_frames_nonempty_request _ _ _ _ _ Hne).
  rewrite map_int_raises; [reflexivity|].
  apply (split_keeps_char "-" "," request eq_refl) in Hcomma.
  apply Exists_exists in Hcomma as [piece [Hin Hpiece]].
  apply Exists_exists. exists piece. split; [exact Hin|].
  now apply int_rejects_comma.
Qed.

Lemma request_frames_comma_ValueError_witness :
  contains_char "," "1,3-5" = true /\
  request_frames "./A.xyz" (mkWorld [] ["1,3-5"] None)
  = (Raise ValueError, mkWorld [] [] None).
Proof.
  split; [reflexivity|].
  apply (request_frames_comma_ValueError "./A.xyz" "1,3-5" [] [] None).
  reflexivity.
Defined.

(** ** multiframe_xyz_to_list, on well-formed and on short files *)

Lemma string_app_nil_r (s : string) : (s ++ "")%string = s.
Proof. induction s as [|c s IH]; simpl; [reflexivity|now rewrite IH]. Qed.

Lemma string_app_assoc (s t u : string) :
  ((s ++ t) ++ u)%string = (s ++ (t ++ u))%string.
Proof. induction s as [|c s IH]; simpl; [reflexivity|now rewrite IH]. Qed.

Lemma concat_lines_cons (line : string) (lines : list string) :
  String.concat "" (line :: lines) = (line ++ String.concat "" lines)%string.
Proof.
  destruct lines as [|line' lines]; simpl; [now rewrite string_app_nil_r|].
  reflexivity.
Qed.

(** As long as [line_count] cannot meet [section_length], the lines read
    are appended to [frame_contents] and counted, nothing else. *)
Lemma read_frames_appends (len : Z) (rest : list string) :
  forall (lines : list string) (frame_contents : string)
         (line_count frame_count : Z),
  len < line_count \/ line_count + Z.of_nat (List.length lines) <= len ->
  read_frames frame_contents line_count frame_count false (Some len)
    (lines ++ rest)
  = read_frames (frame_contents ++ String.concat "" lines)%string
      (line_count + Z.of_nat (List.length lines)) frame_count false
      (Some len) rest.
Proof.
  induction lines as [|line lines IH]; intros fc lc cnt Hroom.
  - simpl. now rewrite string_app_nil_r, Z.add_0_r.
  - cbn [app read_frames rbind].
    replace (lc =? len) with false
      by (symmetry; apply Z.eqb_neq; simpl List.length in Hroom; lia).
    rewrite IH by (simpl List.length in Hroom; lia).
    rewrite concat_lines_cons, string_app_assoc.
    f_equal. simpl List.length. lia.
Qed.

(** A block of [section_length] lines met when the counter is full
    replaces [frame_contents] and adds one to [frame_count]. *)
Lemma read_frames_next_block (len : Z) (rest block : list string)
  (frame_contents : string) (frame_count : Z) :
  1 <= len -> Z.of_nat (List.length block) = len ->
  read_frames frame_contents len frame_count false (Some len)
    (block ++ rest)
  = read_frames (String.concat "" block) len (frame_count + 1) false
      (Some len) rest.
Proof.
  intros Hlen Hblock. destruct block as [|line lines];
    [simpl in Hblock; lia|].
  cbn [app read_frames rbind]. rewrite Z.eqb_refl.
  rewrite read_frames_appends by (simpl List.length in Hblock; lia).
  rewrite concat_lines_cons, string_app_assoc.
  f_equal. simpl List.length in Hblock. lia.
Qed.

Lemma last_cons_default {A : Type} (l : list A) :
  forall x d d' : A, List.last (x :: l) d = List.last (x :: l) d'.
Proof.
  induction l as [|y l IH]; intros x d d'; [reflexivity|].
  change (List.last (y :: l) d = List.last (y :: l) d'). apply IH.
Qed.

Lemma read_frames_blocks (len : Z) :
  1 <= len ->
  forall (blocks : list (list string)) (frame_contents : string)
         (frame_count : Z),
  Forall (fun block => Z.of_nat (List.length block) = len) blocks ->
  read_frames frame_contents len frame_count false (Some len)
    (List.concat blocks)
  = Ok (List.last (map (String.concat "") blocks) frame_contents, len,
        frame_count + Z.of_nat (List.length blocks)).
Proof.
  intros Hlen. induction blocks as [|block blocks IH]; intros fc cnt Hall.
  - simpl. now rewrite Z.add_0_r.
  - apply Forall_cons_iff in Hall as [Hblock Hblocks].
    cbn [List.concat]. rewrite read_frames_next_block by assumption.
    rewrite IH by assumption. f_equal. f_equal; [f_equal|].
    + cbn [map]. destruct blocks as [|block' blocks']; [reflexivity|].
      cbn [map]. change (List.last (?x :: ?y :: ?l) ?d)
        with (List.last (y :: l) d). apply last_cons_default.
    + simpl List.length. lia.
Qed.

Lemma last_map {A B : Type} (f : A -> B) (l : list A) (d : A) :
  List.last (map f l) (f d) = f (List.last l d).
Proof.
  induction l as [|x l IH]; [reflexivity|].
  destruct l as [|y l']; [reflexivity|]. exact IH.
Qed.

(** The first line fixes [section_length]; the rest of the first block of
    a well-formed file is appended behind it. *)
Lemma read_frames_first_block (atoms : Z) (line : string)
  (lines rest : list string) :
  Py.int (Py.strip line) = Ok atoms ->
  0 <= atoms ->
  Z.of_nat (List.length (line :: lines)) = atoms + 2 ->
  read_frames "" 0 0 true None ((line :: lines) ++ rest)
  = read_frames (String.concat "" (line :: lines)) (atoms + 2) 0 false
      (Some (atoms + 2)) rest.
Proof.
  intros Hint Hatoms Hlen.
  cbn [app read_frames]. rewrite Hint. cbn [rbind].
  replace (0 =? atoms + 2) with false by (symmetry; apply Z.eqb_neq; lia).
  rewrite read_frames_appends by (simpl List.length in Hlen; lia).
  rewrite concat_lines_cons. cbn [String.append].
  f_equal. simpl List.length in Hlen. lia.
Qed.

(** X5.  On a well-formed trajectory (blocks of [atoms + 2] lines each,
    the first line reading [atoms]) the loop ends with the text of the
    last block in [frame_contents], a full [line_count], and
    [frame_count] one short of the number of blocks; the list built
    holds that last block and nothing else. *)
Theorem collect_frames_well_formed (atoms : Z) (first : list string)
  (others : list (list string)) :
  0 <= atoms ->
  Forall (fun block => Z.of_nat (List.length block) = atoms + 2)
    (first :: others) ->
  Py.int (Py.strip (hd "" first)) = Ok atoms ->
  read_frames "" 0 0 true None (List.concat (first :: others))
    = Ok (String.concat "" (List.last others first), atoms + 2,
          Z.of_nat (List.length others)) /\
  collect_frames (List.concat (first :: others))
    = Ok [String.concat "" (List.last others first)].
Proof.
  intros Hatoms Hall Hint.
  apply Forall_cons_iff in Hall as [Hfirst Hothers].
  assert (E : read_frames "" 0 0 true None (List.concat (first :: others))
    = Ok (String.concat "" (List.last others first), atoms + 2,
          Z.of_nat (List.length others))).
  { destruct first as [|line lines]; [simpl in Hfirst; lia|].
    cbn [List.concat]. simpl hd in Hint.
    rewrite (read_frames_first_block atoms line lines _ Hint Hatoms Hfirst).
    rewrite read_frames_blocks by (assumption || lia).
    rewrite last_map. reflexivity. }
  split; [exact E|].
  unfold collect_frames. now rewrite E.
Qed.

Lemma collect_frames_well_formed_witness :
  0 <= 2 /\
  Forall (fun block => Z.of_nat (List.length block) = 2 + 2)
    [frame_lines "2" 2 "B1"; frame_lines "2" 2 "B2"; frame_lines "2" 2 "B3"] /\
  Py.int (Py.strip (hd "" (frame_lines "2" 2 "B1"))) = Ok 2 /\
  collect_frames file_B = Ok [block "B3"].
Proof.
  assert (H0 : 0 <= 2) by lia.
  assert (Hall : Forall (fun block => Z.of_nat (List.length block) = 2 + 2)
    [frame_lines "2" 2 "B1"; frame_lines "2" 2 "B2"; frame_lines "2" 2 "B3"])
    by (repeat constructor).
  assert (Hint : Py.int (Py.strip (hd "" (frame_lines "2" 2 "B1"))) = Ok 2)
    by reflexivity.
  repeat (split; [assumption|]).
  exact (proj2 (collect_frames_well_formed 2 (frame_lines "2" 2 "B1")
                  [frame_lines "2" 2 "B2"; frame_lines "2" 2 "B3"]
                  H0 Hall Hint)).
Defined.

(** X6.  When the count read on the first line does not fit the file
    (the file has at most [atoms + 2] lines, or [atoms + 2] is not
    positive), no reset changes [frame_contents]: the list built holds
    the whole text of the file as its one element. *)
Theorem collect_frames_short_file (atoms : Z) (line : string)
  (lines : list string) :
  Py.int (Py.strip line) = Ok atoms ->
  atoms + 2 <= 0 \/ Z.of_nat (List.length (line :: lines)) <= atoms + 2 ->
  collect_frames (line :: lines) = Ok [String.concat "" (line :: lines)].
Proof.
  intros Hint Hfit. unfold collect_frames.
  cbn [read_frames]. rewrite Hint. cbn [rbind].
  assert (Hrest : forall n,
    read_frames ("" ++ line)%string (0 + 1) n false (Some (atoms + 2)) lines
    = Ok (String.concat "" (line :: lines),
          0 + 1 + Z.of_nat (List.length lines), n)).
  { intros n. rewrite <- (app_nil_r lines) at 1.
    rewrite read_frames_appends by (simpl List.length in Hfit; lia).
    now rewrite concat_lines_cons. }
  destruct (0 =? atoms + 2); rewrite Hrest; reflexivity.
Qed.

Lemma collect_frames_short_file_witness :
  Py.int (Py.strip ("7" ++ nl)) = Ok 7 /\
  (7 + 2 <= 0 \/
   Z.of_nat (List.length (frame_lines "7" 2 "cut")) <= 7 + 2) /\
  collect_frames (frame_lines "7" 2 "cut")
    = Ok [String.concat "" (frame_lines "7" 2 "cut")].
Proof.
  assert (Hint : Py.int (Py.strip ("7" ++ nl)) = Ok 7) by reflexivity.
  assert (Hfit : 7 + 2 <= 0 \/
            Z.of_nat (List.length (frame_lines "7" 2 "cut")) <= 7 + 2)
    by (right; simpl; lia).
  split; [exact Hint|]. split; [exact Hfit|].
  exact (collect_frames_short_file 7 ("7" ++ nl)%string
           (("frame " ++ "cut" ++ nl)%string
            :: repeat ("H 0.0 0.0 0.0" ++ nl)%string 2) Hint Hfit).
Defined.

(** ** combine_xyz_files, on any directory *)


Lemma filter_no_lines (files : list (string * list string)) :
  Forall (fun f => snd f = []) files -> filter has_lines files = [].
Proof.
  induction 1 as [|f files Hf _ IH]; [reflexivity|].
  simpl. unfold has_lines at 1. now rewrite Hf.
Qed.

(** X8.  The run ends in the parse of the first listed file that has a
    line, with nothing asked and nothing written: with [ValueError] when
    the first line of that file is no integer literal, with [TypeError]
    otherwise.  The files listed after it are never opened for their
    frames. *)
Theorem combine_xyz_files_first_trajectory (w : world)
  (before after : list (string * list string)) (name line : string)
  (lines : list string) :
  NoDup (map fst (xyz_files w)) ->
  xyz_files w = before ++ (name, line :: lines) :: after ->
  Forall (fun f => snd f = []) before ->
  combine_xyz_files w
  = (Raise (match Py.int (Py.strip line) with
            | Ok _ => TypeError
            | Raise _ => ValueError
            end), w).
Proof.
  intros Hnodup Hfiles Hbefore.
  assert (Hnot : ~ In name (map fst before)).
  { rewrite Hfiles, map_app in Hnodup. simpl in Hnodup.
    apply NoDup_remove_2 in Hnodup. intros Hin. apply Hnodup.
    apply in_or_app. now left. }
  pose proof (open_read_listed w name (line :: lines) before after
                Hfiles Hnot) as Hopen.
  pose proof (multiframe_xyz_to_list_result name w _ Hopen) as R.
  unfold combine_xyz_files, get_xyz_filenames.
  unfold bind at 1. unfold bind at 1, glob_xyz.
  rewrite (scan_files_keeps_files_with_lines w Hnodup (xyz_files w) [] [] None)
    by reflexivity.
  rewrite Hfiles at 1. rewrite filter_app, (filter_no_lines before Hbefore).
  cbn [app filter has_lines snd map fst combine_files].
  unfold bind at 1. unfold bind at 1. unfold combine_file.
  unfold bind at 1. rewrite R. reflexivity.
Qed.

Lemma combine_xyz_files_first_trajectory_witness :
  NoDup (map fst (xyz_files (world0
    [("./0.xyz", []); ("./1.xyz", ["two" ++ nl]%string); ("./A.xyz", file_A)]
    ["1-3"]))) /\
  combine_xyz_files (world0
    [("./0.xyz", []); ("./1.xyz", ["two" ++ nl]%string); ("./A.xyz", file_A)]
    ["1-3"])
  = (Raise ValueError, world0
    [("./0.xyz", []); ("./1.xyz", ["two" ++ nl]%string); ("./A.xyz", file_A)]
    ["1-3"]).
Proof.
  assert (Hnodup : NoDup (map fst (xyz_files (world0
    [("./0.xyz", []); ("./1.xyz", ["two" ++ nl]%string); ("./A.xyz", file_A)]
    ["1-3"])))).
  { simpl. repeat constructor; simpl; intuition discriminate. }
  split; [exact Hnodup|].
  apply (combine_xyz_files_first_trajectory _ [("./0.xyz", [])]
           [("./A.xyz", file_A)] "./1.xyz" ("two" ++ nl)%string []).
  - exact Hnodup.
  - reflexivity.
  - repeat constructor.
Defined.

(** X9.  Writing a list of entries appends their texts to the file in
    order, back to back and unchanged, and touches nothing else. *)
Theorem write_entries_verbatim (entries : list string) (w : world) :
  write_entries entries w
  = (Ok tt,
     mkWorld (xyz_files w) (stdin w)
       (match entries, combined_xyz w with
        | [], text => text
        | _ :: _, Some text => Some (text ++ String.concat "" entries)%string
        | _ :: _, None => Some (String.concat "" entries)
        end)).
Proof.
  revert w. induction entries as [|entry entries IH]; intros w.
  - destruct w; reflexivity.
  - cbn [write_entries]. unfold bind, write_combined. rewrite IH.
    cbn [xyz_files stdin combined_xyz]. f_equal. f_equal.
    rewrite concat_lines_cons.
    destruct entries as [|entry' entries'].
    + cbn [String.concat]. rewrite string_app_nil_r.
      destruct (combined_xyz w); reflexivity.
    + destruct (combined_xyz w); [now rewrite string_app_assoc|reflexivity].
Qed.

(** ** The frame selection, when every position is requested *)

Lemma select_frames_all_from (spec : list Z) (xyz_list : list string) :
  forall index : Z,
  (forall i, index + 1 <= i <= index + Z.of_nat (List.length xyz_list) ->
             In i spec) ->
  select_frames index xyz_list (Py.VList spec) = Ok xyz_list.
Proof.
  induction xyz_list as [|frame rest IH]; intros index Hall; [reflexivity|].
  cbn [select_frames Py.contains rbind].
  rewrite IH by (intros i Hi; apply Hall; simpl List.length; lia).
  cbn [rbind].
  replace (existsb (Z.eqb (index + 1)) spec) with true; [reflexivity|].
  symmetry. apply existsb_exists. exists (index + 1).
  split; [apply Hall; simpl List.length; lia|apply Z.eqb_refl].
Qed.

(** X10.  A request that names every position of the file, in whatever
    order and with whatever else, selects all the frames of the file, in
    file order. *)
Theorem select_frames_all (xyz_list : list string) (spec : list Z) :
  (forall i, 1 <= i <= Z.of_nat (List.length xyz_list) -> In i spec) ->
  select_frames 0 xyz_list (Py.VList spec) = Ok xyz_list.
Proof.
  intros Hall. apply select_frames_all_from. intros i Hi. apply Hall. lia.
Qed.

Lemma select_frames_all_witness :
  (forall i, 1 <= i <= Z.of_nat (List.length frames_A) ->
             In i [5; 4; 9; 3; 2; 1; 5]) /\
  select_frames 0 frames_A (Py.VList [5; 4; 9; 3; 2; 1; 5]) = Ok frames_A.
Proof.
  assert (Hall : forall i, 1 <= i <= Z.of_nat (List.length frames_A) ->
                           In i [5; 4; 9; 3; 2; 1; 5]).
  { simpl. intros i Hi.
    assert (C : i = 1 \/ i = 2 \/ i = 3 \/ i = 4 \/ i = 5) by lia.
    intuition. }
  split; [exact Hall|].
  exact (select_frames_all frames_A [5; 4; 9; 3; 2; 1; 5] Hall).
Defined.

(** * Properties of pair_scan_swapper.py *)

(** ** The cut into frames *)

Lemma read_blocks_concat (xyzfile : list string) :
  forall (lines_lists : list (list string)) (lines_list : list string)
         (count_lines_to_skip : bool) (lines_to_skip : Z),
  List.concat (fst (read_blocks lines_lists lines_list count_lines_to_skip
                      lines_to_skip xyzfile))
  = List.concat lines_lists ++ lines_list ++ xyzfile.
Proof.
  induction xyzfile as [|line rest IH]; intros ll l c s.
  - simpl. now rewrite concat_app, app_nil_r; simpl; rewrite app_nil_r.
  - cbn [read_blocks].
    destruct (Z.of_nat (List.length (PyList.split_whitespace line)) =? 4);
      [|destruct c]; cbn [negb andb];
      try (rewrite IH; now rewrite <- app_assoc).
    destruct (Z.of_nat (List.length (l ++ [line])) >? s).
    + rewrite IH, last_last, removelast_last, concat_app. simpl.
      now rewrite app_nil_r, <- app_assoc.
    + rewrite IH. now rewrite <- app_assoc.
Qed.

(** X11.  The cut into frames loses no line, adds none and keeps the
    order: the frames put end to end are the file. *)
Theorem read_blocks_keeps_lines (xyzfile : list string) :
  List.concat (fst (read_blocks [] [] true 0 xyzfile)) = xyzfile.
Proof. now rewrite read_blocks_concat. Qed.

(** Header lines read while [lines_to_skip] is still being counted. *)
Lemma read_blocks_counts_headers (rest : list string) :
  forall (headers : list string) (lines_lists : list (list string))
         (lines_list : list string) (lines_to_skip : Z),
  Forall (fun line => four_words line = false) headers ->
  read_blocks lines_lists lines_list true lines_to_skip (headers ++ rest)
  = read_blocks lines_lists (lines_list ++ headers) true
      (lines_to_skip + Z.of_nat (List.length headers)) rest.
Proof.
  induction headers as [|line headers IH]; intros ll l s Hall.
  - simpl. now rewrite app_nil_r, Z.add_0_r.
  - apply Forall_cons_iff in Hall as [Hline Hall]. unfold four_words in Hline.
    cbn [app read_blocks]. rewrite Hline. cbn [negb andb].
    rewrite IH by assumption. rewrite <- app_assoc.
    f_equal. simpl List.length. lia.
Qed.

(** Coordinate lines are appended to the frame being read. *)
Lemma read_blocks_appends_coordinates (rest : list string) :
  forall (coordinates : list string) (lines_lists : list (list string))
         (lines_list : list string) (count_lines_to_skip : bool)
         (lines_to_skip : Z),
  Forall (fun line => four_words line = true) coordinates ->
  read_blocks lines_lists lines_list count_lines_to_skip lines_to_skip
    (coordinates ++ rest)
  = read_blocks lines_lists (lines_list ++ coordinates)
      (match coordinates with [] => count_lines_to_skip | _ => false end)
      lines_to_skip rest.
Proof.
  induction coordinates as [|line coordinates IH]; intros ll l c s Hall.
  - simpl. now rewrite app_nil_r.
  - apply Forall_cons_iff in Hall as [Hline Hall]. unfold four_words in Hline.
    cbn [app read_blocks]. rewrite Hline. cbn [negb andb].
    rewrite IH by assumption. rewrite <- app_assoc.
    destruct coordinates; reflexivity.
Qed.

(** Header lines read once [lines_to_skip] is known, as long as the frame
    being read is not longer than [lines_to_skip]. *)
Lemma read_blocks_appends_headers (rest : list string) :
  forall (headers : list string) (lines_lists : list (list string))
         (lines_list : list string) (lines_to_skip : Z),
  Forall (fun line => four_words line = false) headers ->
  Z.of_nat (List.length lines_list) + Z.of_nat (List.length headers)
    <= lines_to_skip ->
  read_blocks lines_lists lines_list false lines_to_skip (headers ++ rest)
  = read_blocks lines_lists (lines_list ++ headers) false lines_to_skip rest.
Proof.
  induction headers as [|line headers IH]; intros ll l s Hall Hroom.
  - simpl. now rewrite app_nil_r.
  - apply Forall_cons_iff in Hall as [Hline Hall]. unfold four_words in Hline.
    cbn [app read_blocks]. rewrite Hline. cbn [negb andb].
    simpl List.length in Hroom.
    replace (Z.of_nat (List.length (l ++ [line])) >? s) with false
      by (symmetry; rewrite length_app; simpl List.length;
          rewrite Z.gtb_ltb; apply Z.ltb_ge; lia).
    rewrite IH; [now rewrite <- app_assoc|assumption|].
    rewrite length_app. simpl List.length. lia.
Qed.

(** The first header line of a frame that follows a complete one closes
    the frame before it. *)
Lemma read_blocks_next_frame (rest headers : list string)
  (lines_lists : list (list string)) (lines_list : list string)
  (lines_to_skip : Z) :
  Forall (fun line => four_words line = false) headers ->
  Z.of_nat (List.length headers) = lines_to_skip ->
  1 <= lines_to_skip ->
  lines_to_skip <= Z.of_nat (List.length lines_list) ->
  read_blocks lines_lists lines_list false lines_to_skip (headers ++ rest)
  = read_blocks (lines_lists ++ [lines_list]) headers false lines_to_skip
      rest.
Proof.
  intros Hall Hlen Hpos Hfull.
  destruct headers as [|line headers]; [simpl in Hlen; lia|].
  apply Forall_cons_iff in Hall as [Hline Hall]. unfold four_words in Hline.
  cbn [app read_blocks]. rewrite Hline. cbn [negb andb].
  replace (Z.of_nat (List.length (lines_list ++ [line])) >? lines_to_skip)
    with true
    by (symmetry; rewrite length_app; simpl List.length;
        rewrite Z.gtb_ltb; apply Z.ltb_lt; lia).
  rewrite last_last, removelast_last.
  rewrite read_blocks_appends_headers; [reflexivity|assumption|].
  simpl List.length in *. lia.
Qed.

Lemma read_blocks_later_frames (skip : nat) :
  (1 <= skip)%nat ->
  forall (frames : list (list string * list string))
         (lines_lists : list (list string)) (lines_list : list string),
  Forall (well_formed_frame skip) frames ->
  (skip <= List.length lines_list)%nat ->
  read_blocks lines_lists lines_list false (Z.of_nat skip)
    (List.concat (map frame_of frames))
  = (lines_lists ++ lines_list :: map frame_of frames, Z.of_nat skip).
Proof.
  intros Hskip. induction frames as [|[headers coordinates] frames IH];
    intros ll l Hall Hfull.
  - reflexivity.
  - apply Forall_cons_iff in Hall as [[Hlen [Hh [Hc _]]] Hall].
    simpl in Hlen, Hh, Hc.
    cbn [map List.concat]. unfold frame_of at 1. cbn [fst snd].
    rewrite <- !app_assoc.
    rewrite read_blocks_next_frame by (assumption || lia).
    rewrite read_blocks_appends_coordinates by assumption.
    replace (match coordinates with [] => false | _ :: _ => false end)
      with false by (destruct coordinates; reflexivity).
    rewrite IH; [|assumption|rewrite length_app; lia].
    now rewrite <- app_assoc.
Qed.

(** X12.  A file made of well-formed frames (the same number, at least
    one, of header lines in each, none of them of four words, then at
    least one coordinate line of four words) is cut frame by frame, and
    [lines_to_skip] is the number of header lines. *)
Theorem read_blocks_well_formed (skip : nat)
  (first : list string * list string)
  (others : list (list string * list string)) :
  (1 <= skip)%nat ->
  Forall (well_formed_frame skip) (first :: others) ->
  read_blocks [] [] true 0 (List.concat (map frame_of (first :: others)))
  = (map frame_of (first :: others), Z.of_nat skip).
Proof.
  intros Hskip Hall. destruct first as [headers coordinates].
  apply Forall_cons_iff in Hall as [[Hlen [Hh [Hc Hne]]] Hall].
  simpl in Hlen, Hh, Hc, Hne.
  cbn [map List.concat]. unfold frame_of at 1 3. cbn [fst snd].
  rewrite <- !app_assoc.
  rewrite read_blocks_counts_headers by assumption.
  rewrite read_blocks_appends_coordinates by assumption.
  destruct coordinates as [|line coordinates]; [contradiction|].
  rewrite Hlen. cbn [app]. change (0 + Z.of_nat skip) with (Z.of_nat skip).
  rewrite (read_blocks_later_frames skip Hskip others [] _ Hall);
    [reflexivity|].
  rewrite length_app. lia.
Qed.

Lemma read_blocks_well_formed_witness :
  (1 <= 2)%nat /\
  Forall (well_formed_frame 2) [water "1.5"; water "2.5"; water "3.5"] /\
  read_blocks [] [] true 0
    (List.concat (map frame_of [water "1.5"; water "2.5"; water "3.5"]))
  = (map frame_of [water "1.5"; water "2.5"; water "3.5"], 2).
Proof.
  assert (Hskip : (1 <= 2)%nat) by lia.
  assert (Hall : Forall (well_formed_frame 2)
                   [water "1.5"; water "2.5"; water "3.5"]).
  { repeat (apply Forall_cons; [unfold well_formed_frame; simpl|]);
      [| | |apply Forall_nil];
      repeat split;
      first [ reflexivity | discriminate
            | repeat (apply Forall_cons; [reflexivity|]); apply Forall_nil ]. }
  split; [exact Hskip|]. split; [exact Hall|].
  exact (read_blocks_well_formed 2 (water "1.5") [water "2.5"; water "3.5"]
           Hskip Hall).
Defined.

(** ** The exchange of two lines *)

Lemma replace_nth_length (v : string) (l : list string) :
  forall k, List.length (PyList.replace_nth k v l) = List.length l.
Proof.
  induction l as [|x l IH]; intros k; destruct k; simpl;
    try reflexivity. now rewrite IH.
Qed.

Lemma nth_replace_nth_same (v d : string) (l : list string) :
  forall k, (k < List.length l)%nat -> nth k (PyList.replace_nth k v l) d = v.
Proof.
  induction l as [|x l IH]; intros k Hk; [simpl in Hk; lia|].
  destruct k; simpl; [reflexivity|]. apply IH. simpl in Hk. lia.
Qed.

Lemma nth_replace_nth_other (v d : string) (l : list string) :
  forall k j, k <> j -> nth j (PyList.replace_nth k v l) d = nth j l d.
Proof.
  induction l as [|x l IH]; intros k j Hne; destruct k, j; simpl;
    try reflexivity; [contradiction|].
  apply IH. congruence.
Qed.

Lemma position_bound (n : nat) (i : Z) (k : nat) :
  PyList.position n i = Ok k -> (k < n)%nat.
Proof.
  unfold PyList.position.
  destruct ((0 <=? (if i <? 0 then i + Z.of_nat n else i))
            && ((if i <? 0 then i + Z.of_nat n else i) <? Z.of_nat n))
    eqn:Hin; [|discriminate].
  intros H. inversion H. apply andb_true_iff in Hin as [Hlo Hhi].
  apply Z.leb_le in Hlo. apply Z.ltb_lt in Hhi. lia.
Qed.

Lemma swap_lines_result (atom1 atom2 lines_to_skip : Z)
  (lines : list string) (i1 i2 : nat) :
  PyList.position (List.length lines) (atom1 + lines_to_skip - 1) = Ok i1 ->
  PyList.position (List.length lines) (atom2 + lines_to_skip - 1) = Ok i2 ->
  swap_lines atom1 atom2 lines_to_skip lines
  = Ok (PyList.replace_nth i1 (nth i2 lines "")
          (PyList.replace_nth i2 (nth i1 lines "") lines)).
Proof.
  intros H1 H2. unfold swap_lines, PyList.getitem, PyList.setitem.
  rewrite H1, H2. cbn [rbind].
  rewrite replace_nth_length, H1. reflexivity.
Qed.

Lemma swap_lines_positions (atom1 atom2 lines_to_skip : Z)
  (lines swapped : list string) :
  swap_lines atom1 atom2 lines_to_skip lines = Ok swapped ->
  exists i1 i2,
    PyList.position (List.length lines) (atom1 + lines_to_skip - 1) = Ok i1 /\
    PyList.position (List.length lines) (atom2 + lines_to_skip - 1) = Ok i2.
Proof.
  unfold swap_lines, PyList.getitem.
  destruct (PyList.position _ (atom1 + lines_to_skip - 1)) as [i1|];
    [|discriminate].
  destruct (PyList.position _ (atom2 + lines_to_skip - 1)) as [i2|];
    [|discriminate].
  intros _. now exists i1, i2.
Qed.

(** X13.  When both indices designate a line of the frame, the exchange
    returns a frame of the same length in which the two designated lines
    have changed places and every other line is where it was. *)
Theorem swap_lines_exchanges (atom1 atom2 lines_to_skip : Z)
  (lines : list string) (i1 i2 : nat) :
  PyList.position (List.length lines) (atom1 + lines_to_skip - 1) = Ok i1 ->
  PyList.position (List.length lines) (atom2 + lines_to_skip - 1) = Ok i2 ->
  exists swapped,
    swap_lines atom1 atom2 lines_to_skip lines = Ok swapped /\
    List.length swapped = List.length lines /\
    nth i1 swapped "" = nth i2 lines "" /\
    nth i2 swapped "" = nth i1 lines "" /\
    forall k, k <> i1 -> k <> i2 -> nth k swapped "" = nth k lines "".
Proof.
  intros H1 H2. eexists.
  split; [exact (swap_lines_result _ _ _ _ _ _ H1 H2)|].
  pose proof (position_bound _ _ _ H1) as B1.
  pose proof (position_bound _ _ _ H2) as B2.
  repeat split.
  - now rewrite !replace_nth_length.
  - apply nth_replace_nth_same. now rewrite replace_nth_length.
  - destruct (Nat.eq_dec i1 i2) as [->|Hne].
    + apply nth_replace_nth_same. now rewrite replace_nth_length.
    + rewrite nth_replace_nth_other by assumption.
      now apply nth_replace_nth_same.
  - intros k Hk1 Hk2.
    rewrite !nth_replace_nth_other by congruence. reflexivity.
Qed.

Lemma swap_lines_exchanges_witness :
  PyList.position (List.length (frame_of (water "1.5"))) (1 + 2 - 1) = Ok 2%nat /\
  PyList.position (List.length (frame_of (water "1.5"))) (3 + 2 - 1) = Ok 4%nat /\
  exists swapped,
    swap_lines 1 3 2 (frame_of (water "1.5")) = Ok swapped /\
    nth 2 swapped "" = nth 4 (frame_of (water "1.5")) "".
Proof.
  assert (H1 : PyList.position (List.length (frame_of (water "1.5")))
                 (1 + 2 - 1) = Ok 2%nat) by reflexivity.
  assert (H2 : PyList.position (List.length (frame_of (water "1.5")))
                 (3 + 2 - 1) = Ok 4%nat) by reflexivity.
  split; [exact H1|]. split; [exact H2|].
  destruct (swap_lines_exchanges 1 3 2 (frame_of (water "1.5")) 2 4 H1 H2)
    as [swapped [E [_ [E1 _]]]].
  exists swapped. split; [exact E|exact E1].
Defined.

(** X14.  Exchanging the same two atoms again gives the frame back. *)
Theorem swap_lines_twice (atom1 atom2 lines_to_skip : Z)
  (lines swapped : list string) :
  swap_lines atom1 atom2 lines_to_skip lines = Ok swapped ->
  swap_lines atom1 atom2 lines_to_skip swapped = Ok lines.
Proof.
  intros E.
  destruct (swap_lines_positions _ _ _ _ _ E) as [i1 [i2 [H1 H2]]].
  pose proof (position_bound _ _ _ H1) as B1.
  pose proof (position_bound _ _ _ H2) as B2.
  rewrite (swap_lines_result _ _ _ _ _ _ H1 H2) in E.
  injection E as Eswapped.
  assert (Hlen : List.length swapped = List.length lines)
    by (subst swapped; now rewrite !replace_nth_length).
  rewrite (swap_lines_result atom1 atom2 lines_to_skip swapped i1 i2)
    by (rewrite Hlen; assumption).
  f_equal. apply (nth_ext _ _ "" "").
  - now rewrite !replace_nth_length.
  - intros k _.
    assert (S1 : nth i1 swapped "" = nth i2 lines "").
    { subst swapped. apply nth_replace_nth_same.
      now rewrite replace_nth_length. }
    assert (S2 : nth i2 swapped "" = nth i1 lines "").
    { subst swapped. destruct (Nat.eq_dec i1 i2) as [->|Hne].
      - apply nth_replace_nth_same. now rewrite replace_nth_length.
      - rewrite nth_replace_nth_other by assumption.
        now apply nth_replace_nth_same. }
    destruct (Nat.eq_dec k i1) as [->|Hk1].
    + rewrite nth_replace_nth_same
        by (rewrite replace_nth_length, Hlen; assumption).
      exact S2.
    + rewrite nth_replace_nth_other by congruence.
      destruct (Nat.eq_dec k i2) as [->|Hk2].
      * rewrite nth_replace_nth_same by (rewrite Hlen; assumption).
        exact S1.
      * rewrite nth_replace_nth_other by congruence.
        subst swapped. rewrite !nth_replace_nth_other by congruence.
        reflexivity.
Qed.

Lemma swap_lines_twice_witness :
  exists swapped,
    swap_lines 1 3 2 (frame_of (water "1.5")) = Ok swapped /\
    swap_lines 1 3 2 swapped = Ok (frame_of (water "1.5")).
Proof.
  eexists. split; [reflexivity|].
  apply (swap_lines_twice 1 3 2 (frame_of (water "1.5"))). reflexivity.
Defined.

(** X15.  An index that designates no line of the frame, beyond its end
    or before its start counted from the end, ends the exchange with
    [IndexError]; on an empty frame every index does. *)
Theorem swap_lines_IndexError (atom1 atom2 lines_to_skip : Z)
  (lines : list string) :
  (Z.of_nat (List.length lines) <= atom1 + lines_to_skip - 1 \/
   atom1 + lines_to_skip - 1 < - Z.of_nat (List.length lines) \/
   Z.of_nat (List.length lines) <= atom2 + lines_to_skip - 1 \/
   atom2 + lines_to_skip - 1 < - Z.of_nat (List.length lines)) ->
  swap_lines atom1 atom2 lines_to_skip lines = Raise IndexError.
Proof.
  intros Hout.
  assert (P : forall i,
    (Z.of_nat (List.length lines) <= i \/ i < - Z.of_nat (List.length lines))
    -> PyList.position (List.length lines) i = Raise IndexError).
  { intros i Hi. unfold PyList.position.
    destruct (i <? 0) eqn:Hneg.
    - apply Z.ltb_lt in Hneg.
      replace (0 <=? i + Z.of_nat (List.length lines)) with false
        by (symmetry; apply Z.leb_gt; lia).
      reflexivity.
    - apply Z.ltb_ge in Hneg.
      replace (i <? Z.of_nat (List.length lines)) with false
        by (symmetry; apply Z.ltb_ge; lia).
      now rewrite andb_false_r. }
  unfold swap_lines, PyList.getitem.
  destruct (PyList.position (List.length lines) (atom1 + lines_to_skip - 1))
    as [i1|e1] eqn:H1.
  - cbn [rbind].
    destruct (PyList.position (List.length lines)
                (atom2 + lines_to_skip - 1)) as [i2|e2] eqn:H2.
    + exfalso. destruct Hout as [H|[H|[H|H]]].
      * rewrite P in H1 by (left; exact H). discriminate.
      * rewrite P in H1 by (right; exact H). discriminate.
      * rewrite P in H2 by (left; exact H). discriminate.
      * rewrite P in H2 by (right; exact H). discriminate.
    + cbn [rbind]. f_equal. unfold PyList.position in H2.
      destruct (_ && _) in H2; congruence.
  - cbn [rbind]. f_equal. unfold PyList.position in H1.
    destruct (_ && _) in H1; congruence.
Qed.

Lemma swap_lines_IndexError_witness :
  (Z.of_nat (List.length (frame_of (water "1.5"))) <= 1 + 2 - 1 \/
   1 + 2 - 1 < - Z.of_nat (List.length (frame_of (water "1.5"))) \/
   Z.of_nat (List.length (frame_of (water "1.5"))) <= 4 + 2 - 1 \/
   4 + 2 - 1 < - Z.of_nat (List.length (frame_of (water "1.5")))) /\
  swap_lines 1 4 2 (frame_of (water "1.5")) = Raise IndexError.
Proof.
  assert (Hout :
    Z.of_nat (List.length (frame_of (water "1.5"))) <= 1 + 2 - 1 \/
    1 + 2 - 1 < - Z.of_nat (List.length (frame_of (water "1.5"))) \/
    Z.of_nat (List.length (frame_of (water "1.5"))) <= 4 + 2 - 1 \/
    4 + 2 - 1 < - Z.of_nat (List.length (frame_of (water "1.5"))))
    by (right; right; left; simpl; lia).
  split; [exact Hout|].
  exact (swap_lines_IndexError 1 4 2 (frame_of (water "1.5")) Hout).
Defined.

(** ** The file written *)

Lemma concat_lines_app (l1 l2 : list string) :
  String.concat "" (l1 ++ l2)
  = (String.concat "" l1 ++ String.concat "" l2)%string.
Proof.
  induction l1 as [|x l1 IH]; [reflexivity|].
  change ((x :: l1) ++ l2) with (x :: (l1 ++ l2)).
  now rewrite !concat_lines_cons, IH, string_app_assoc.
Qed.

Lemma write_lines_text (lines : list string) :
  forall (fs : list (string * list string)) (kb : list string)
         (name text : string),
  write_lines lines (mkDisk fs kb (Some (name, text)))
  = (Ok tt, mkDisk fs kb (Some (name, (text ++ String.concat "" lines)%string))).
Proof.
  induction lines as [|line lines IH]; intros fs kb name text.
  - simpl. now rewrite string_app_nil_r.
  - cbn [write_lines]. unfold dbind, write_line. cbn [files keyboard new_file].
    rewrite IH, concat_lines_cons, string_app_assoc. reflexivity.
Qed.

(** The frames exchanged so far are in the file when a later frame makes
    the exchange fail. *)
Lemma write_blocks_text (atom1 atom2 lines_to_skip : Z)
  (fs : list (string * list string)) (kb : list string) (name : string) :
  forall (good swapped : list (list string)) (later : list (list string))
         (text : string),
  map_result (swap_lines atom1 atom2 lines_to_skip) good = Ok swapped ->
  write_blocks atom1 atom2 lines_to_skip (good ++ later)
    (mkDisk fs kb (Some (name, text)))
  = write_blocks atom1 atom2 lines_to_skip later
      (mkDisk fs kb
         (Some (name,
                (text ++ String.concat "" (List.concat swapped))%string))).
Proof.
  induction good as [|lines good IH]; intros swapped later text Hmap.
  - simpl in Hmap. injection Hmap as <-. simpl.
    now rewrite string_app_nil_r.
  - cbn [map_result] in Hmap.
    destruct (swap_lines atom1 atom2 lines_to_skip lines) as [lines'|]
      eqn:Hswap; [|discriminate].
    cbn [rbind] in Hmap.
    destruct (map_result _ good) as [swapped'|] eqn:Hgood; [|discriminate].
    injection Hmap as <-.
    cbn [app write_blocks]. unfold dbind at 1, dlift. rewrite Hswap.
    unfold dbind at 1. rewrite write_lines_text.
    rewrite (IH swapped' later _ eq_refl).
    cbn [List.concat]. now rewrite concat_lines_app, string_app_assoc.
Qed.

(** X16.  When the exchange fails in a frame, the run ends with that
    exception and the file written holds the frames before it, already
    exchanged: a truncated file is left behind. *)
Theorem write_blocks_partial (atom1 atom2 lines_to_skip : Z)
  (fs : list (string * list string)) (kb : list string) (name text : string)
  (good swapped later : list (list string)) (bad : list string) (e : exn) :
  map_result (swap_lines atom1 atom2 lines_to_skip) good = Ok swapped ->
  swap_lines atom1 atom2 lines_to_skip bad = Raise e ->
  write_blocks atom1 atom2 lines_to_skip (good ++ bad :: later)
    (mkDisk fs kb (Some (name, text)))
  = (Raise e,
     mkDisk fs kb
       (Some (name, (text ++ String.concat "" (List.concat swapped))%string))).
Proof.
  intros Hgood Hbad.
  rewrite (write_blocks_text _ _ _ _ _ _ good swapped _ _ Hgood).
  cbn [write_blocks]. unfold dbind, dlift. now rewrite Hbad.
Qed.

Lemma write_blocks_partial_witness :
  map_result (swap_lines 1 3 2) [frame_of (water "1.5")]
    = Ok [fst (water "1.5") ++ exchange 0 2 (snd (water "1.5"))] /\
  swap_lines 1 3 2 (frame_lines "2" 2 "short") = Raise IndexError /\
  write_blocks 1 3 2
    ([frame_of (water "1.5")] ++ frame_lines "2" 2 "short"
       :: [frame_of (water "3.5")])
    (mkDisk [] [] (Some ("w_1_3.xyz", "")))
  = (Raise IndexError,
     mkDisk [] []
       (Some ("w_1_3.xyz",
              String.concat ""
                (fst (water "1.5") ++ exchange 0 2 (snd (water "1.5")))))).
Proof.
  assert (Hgood : map_result (swap_lines 1 3 2) [frame_of (water "1.5")]
    = Ok [fst (water "1.5") ++ exchange 0 2 (snd (water "1.5"))])
    by reflexivity.
  assert (Hbad : swap_lines 1 3 2 (frame_lines "2" 2 "short")
                 = Raise IndexError) by reflexivity.
  split; [exact Hgood|]. split; [exact Hbad|].
  exact (write_blocks_partial 1 3 2 [] [] "w_1_3.xyz" ""
           [frame_of (water "1.5")] _ [frame_of (water "3.5")]
           (frame_lines "2" 2 "short") IndexError Hgood Hbad).
Defined.

Lemma replace_nth_app_r (v : string) (headers coordinates : list string)
  (i : nat) :
  PyList.replace_nth (List.length headers + i) v (headers ++ coordinates)
  = headers ++ PyList.replace_nth i v coordinates.
Proof.
  induction headers as [|h headers IH]; [reflexivity|].
  simpl. now rewrite IH.
Qed.

(** Atom numbers within the frame designate coordinate lines: the header
    lines stay, and the two coordinate lines change places. *)
Lemma swap_lines_coordinates (atom1 atom2 : Z)
  (headers coordinates : list string) :
  1 <= atom1 <= Z.of_nat (List.length coordinates) ->
  1 <= atom2 <= Z.of_nat (List.length coordinates) ->
  swap_lines atom1 atom2 (Z.of_nat (List.length headers))
    (headers ++ coordinates)
  = Ok (headers
        ++ exchange (Z.to_nat (atom1 - 1)) (Z.to_nat (atom2 - 1)) coordinates).
Proof.
  intros H1 H2.
  assert (P : forall atom, 1 <= atom <= Z.of_nat (List.length coordinates) ->
    PyList.position (List.length (headers ++ coordinates))
      (atom + Z.of_nat (List.length headers) - 1)
    = Ok (List.length headers + Z.to_nat (atom - 1))%nat).
  { intros atom Ha. unfold PyList.position. rewrite length_app.
    replace (atom + Z.of_nat (List.length headers) - 1 <? 0) with false
      by (symmetry; apply Z.ltb_ge; lia).
    replace (0 <=? atom + Z.of_nat (List.length headers) - 1) with true
      by (symmetry; apply Z.leb_le; lia).
    replace (atom + Z.of_nat (List.length headers) - 1
             <? Z.of_nat (List.length headers + List.length coordinates))
      with true by (symmetry; apply Z.ltb_lt; lia).
    cbn [andb]. f_equal. lia. }
  rewrite (swap_lines_result _ _ _ _ _ _ (P atom1 H1) (P atom2 H2)).
  rewrite !app_nth2_plus, !replace_nth_app_r. reflexivity.
Qed.

Lemma swap_frames (atom1 atom2 : Z) (skip : nat)
  (frames : list (list string * list string)) :
  Forall (well_formed_frame skip) frames ->
  Forall (fun f => 1 <= atom1 <= Z.of_nat (List.length (snd f)) /\
                   1 <= atom2 <= Z.of_nat (List.length (snd f))) frames ->
  map_result (swap_lines atom1 atom2 (Z.of_nat skip)) (map frame_of frames)
  = Ok (map (fun f => fst f ++ exchange (Z.to_nat (atom1 - 1))
                                (Z.to_nat (atom2 - 1)) (snd f)) frames).
Proof.
  induction frames as [|[headers coordinates] frames IH]; intros Hwf Hin;
    [reflexivity|].
  apply Forall_cons_iff in Hwf as [[Hlen _] Hwf].
  apply Forall_cons_iff in Hin as [[H1 H2] Hin].
  simpl in Hlen, H1, H2. subst skip.
  cbn [map map_result]. unfold frame_of at 1. cbn [fst snd].
  rewrite (swap_lines_coordinates _ _ _ _ H1 H2). cbn [rbind].
  now rewrite (IH Hwf Hin).
Qed.

(** What the script has done once the three answers are read and the
    file is open. *)
Lemma swap_atoms_after_questions (d : disk) (typed1 typed2 filename : string)
  (rest : list string) (atom1 atom2 : Z) (stored : string)
  (xyzfile : list string) :
  keyboard d = typed1 :: typed2 :: filename :: rest ->
  Py.int typed1 = Ok atom1 -> Py.int typed2 = Ok atom2 ->
  find (fun f => String.eqb (fst f) (filename ++ ".xyz")%string) (files d)
    = Some (stored, xyzfile) ->
  swap_atoms d
  = write_blocks atom1 atom2 (snd (read_blocks [] [] true 0 xyzfile))
      (fst (read_blocks [] [] true 0 xyzfile))
      (mkDisk (files d) rest (Some (swapped_name filename atom1 atom2, ""))).
Proof.
  intros Hkb H1 H2 Hfind. destruct d as [fs kb out]. simpl in Hkb, Hfind.
  subst kb. unfold swap_atoms, get_atom.
  unfold dbind, ask, dlift, open_for_reading, open_for_writing.
  cbn [keyboard files new_file]. rewrite H1. cbn [keyboard files new_file].
  rewrite H2. cbn [keyboard files new_file]. rewrite Hfind. cbn [snd].
  destruct (read_blocks [] [] true 0 xyzfile) as [lines_lists lines_to_skip].
  reflexivity.
Qed.

(** X17.  On a file of well-formed frames, with two atom numbers that
    exist in every frame, the script ends normally and the file it
    writes, named after the input and the two numbers, holds every frame
    with its header lines unchanged and the coordinate lines of the two
    atoms exchanged. *)
Theorem swap_atoms_well_formed (d : disk) (typed1 typed2 filename : string)
  (rest : list string) (atom1 atom2 : Z) (stored : string) (skip : nat)
  (first : list string * list string)
  (others : list (list string * list string)) :
  keyboard d = typed1 :: typed2 :: filename :: rest ->
  Py.int typed1 = Ok atom1 -> Py.int typed2 = Ok atom2 ->
  find (fun f => String.eqb (fst f) (filename ++ ".xyz")%string) (files d)
    = Some (stored, List.concat (map frame_of (first :: others))) ->
  (1 <= skip)%nat ->
  Forall (well_formed_frame skip) (first :: others) ->
  Forall (fun f => 1 <= atom1 <= Z.of_nat (List.length (snd f)) /\
                   1 <= atom2 <= Z.of_nat (List.length (snd f)))
    (first :: others) ->
  swap_atoms d
  = (Ok tt,
     mkDisk (files d) rest
       (Some (swapped_name filename atom1 atom2,
              String.concat ""
                (List.concat
                   (map (fun f => fst f ++ exchange (Z.to_nat (atom1 - 1))
                                            (Z.to_nat (atom2 - 1)) (snd f))
                      (first :: others)))))).
Proof.
  intros Hkb H1 H2 Hfind Hskip Hwf Hin.
  rewrite (swap_atoms_after_questions d _ _ _ _ _ _ _ _ Hkb H1 H2 Hfind).
  rewrite (read_blocks_well_formed skip first others Hskip Hwf).
  cbn [fst snd].
  rewrite <- (app_nil_r (map frame_of (first :: others))).
  rewrite (write_blocks_text _ _ _ _ _ _ _ _ [] "" (swap_frames _ _ _ _ Hwf Hin)).
  reflexivity.
Qed.

(** X18.  On an empty file the cut gives one empty frame, in which no
    atom exists: whatever the two numbers, the script ends with
    [IndexError], after it has created the output file, left empty. *)
Theorem swap_atoms_empty_file (d : disk) (typed1 typed2 filename : string)
  (rest : list string) (atom1 atom2 : Z) (stored : string) :
  keyboard d = typed1 :: typed2 :: filename :: rest ->
  Py.int typed1 = Ok atom1 -> Py.int typed2 = Ok atom2 ->
  find (fun f => String.eqb (fst f) (filename ++ ".xyz")%string) (files d)
    = Some (stored, []) ->
  swap_atoms d
  = (Raise IndexError,
     mkDisk (files d) rest (Some (swapped_name filename atom1 atom2, ""))).
Proof.
  intros Hkb H1 H2 Hfind.
  rewrite (swap_atoms_after_questions d _ _ _ _ _ _ _ _ Hkb H1 H2 Hfind).
  cbn [read_blocks fst snd app write_blocks]. unfold dbind, dlift.
  unfold swap_lines, PyList.getitem, PyList.position. cbn [List.length].
  destruct (atom1 + 0 - 1 <? 0) eqn:Hneg.
  - apply Z.ltb_lt in Hneg.
    replace (0 <=? atom1 + 0 - 1 + Z.of_nat 0) with false
      by (symmetry; apply Z.leb_gt; lia).
    reflexivity.
  - apply Z.ltb_ge in Hneg.
    replace (atom1 + 0 - 1 <? Z.of_nat 0) with false
      by (symmetry; apply Z.ltb_ge; lia).
    now rewrite andb_false_r.
Qed.

Lemma swap_atoms_well_formed_witness :
  keyboard (disk_water "w") = ["1"; "3"; "w"] /\
  Py.int "1" = Ok 1 /\ Py.int "3" = Ok 3 /\
  (1 <= 2)%nat /\
  Forall (well_formed_frame 2) [water "1.5"; water "2.5"] /\
  Forall (fun f => 1 <= 1 <= Z.of_nat (List.length (snd f)) /\
                   1 <= 3 <= Z.of_nat (List.length (snd f)))
    [water "1.5"; water "2.5"] /\
  swap_atoms (disk_water "w")
  = (Ok tt,
     mkDisk (files (disk_water "w")) []
       (Some ("w_1_3.xyz",
              String.concat ""
                (fst (water "1.5") ++ exchange 0 2 (snd (water "1.5"))
                 ++ fst (water "2.5") ++ exchange 0 2 (snd (water "2.5")))))).
Proof.
  assert (Hwf : Forall (well_formed_frame 2) [water "1.5"; water "2.5"]).
  { repeat (apply Forall_cons; [unfold well_formed_frame; simpl|]);
      [| |apply Forall_nil];
      repeat split;
      first [ reflexivity | discriminate
            | repeat (apply Forall_cons; [reflexivity|]); apply Forall_nil ]. }
  assert (Hin : Forall (fun f => 1 <= 1 <= Z.of_nat (List.length (snd f)) /\
                                 1 <= 3 <= Z.of_nat (List.length (snd f)))
                  [water "1.5"; water "2.5"]).
  { repeat (apply Forall_cons; [simpl; lia|]). apply Forall_nil. }
  assert (Hskip : (1 <= 2)%nat) by lia.
  repeat (split; [first [reflexivity | assumption]|]).
  exact (swap_atoms_well_formed (disk_water "w") "1" "3" "w" [] 1 3 "w.xyz" 2
           (water "1.5") [water "2.5"] eq_refl eq_refl eq_refl eq_refl
           Hskip Hwf Hin).
Defined.

Lemma swap_atoms_empty_file_witness :
  keyboard (disk_water "e") = ["1"; "3"; "e"] /\
  Py.int "1" = Ok 1 /\ Py.int "3" = Ok 3 /\
  swap_atoms (disk_water "e")
  = (Raise IndexError,
     mkDisk (files (disk_water "e")) [] (Some ("e_1_3.xyz", ""))).
Proof.
  repeat (split; [reflexivity|]).
  exact (swap_atoms_empty_file (disk_water "e") "1" "3" "e" [] 1 3 "e.xyz"
           eq_refl eq_refl eq_refl eq_refl).
Defined.

(** ** The number of header lines *)

Lemma read_blocks_skip_fixed (xyzfile : list string) :
  forall (lines_lists : list (list string)) (lines_list : list string)
         (lines_to_skip : Z),
  snd (read_blocks lines_lists lines_list false lines_to_skip xyzfile)
  = lines_to_skip.
Proof.
  induction xyzfile as [|line rest IH]; intros ll l s; [reflexivity|].
  cbn [read_blocks].
  destruct (Z.of_nat (List.length (PyList.split_whitespace line)) =? 4);
    cbn [negb andb]; [apply IH|].
  destruct (Z.of_nat (List.length (l ++ [line])) >? s); apply IH.
Qed.

(** X19.  [lines_to_skip] is the number of lines that come before the
    first line of four words, whatever these lines are: a comment line of
    four words is taken for the first atom, and shifts every atom number
    by one. *)
Theorem read_blocks_lines_to_skip (before rest : list string)
  (line : string) :
  Forall (fun l => four_words l = false) before ->
  four_words line = true ->
  snd (read_blocks [] [] true 0 (before ++ line :: rest))
  = Z.of_nat (List.length before).
Proof.
  intros Hbefore Hline. unfold four_words in Hline.
  rewrite read_blocks_counts_headers by assumption.
  cbn [read_blocks]. rewrite Hline. cbn [negb andb].
  now rewrite read_blocks_skip_fixed.
Qed.

Lemma read_blocks_lines_to_skip_witness :
  Forall (fun l => four_words l = false) [("3" ++ nl)%string] /\
  four_words ("scan step 4 converged" ++ nl) = true /\
  snd (read_blocks [] [] true 0
         ([("3" ++ nl)%string]
          ++ ("scan step 4 converged" ++ nl)%string :: snd (water "1.5")))
  = 1.
Proof.
  assert (Hbefore : Forall (fun l => four_words l = false)
                      [("3" ++ nl)%string])
    by (apply Forall_cons; [reflexivity|apply Forall_nil]).
  assert (Hline : four_words ("scan step 4 converged" ++ nl) = true)
    by reflexivity.
  split; [exact Hbefore|]. split; [exact Hline|].
  exact (read_blocks_lines_to_skip [("3" ++ nl)%string] (snd (water "1.5"))
           ("scan step 4 converged" ++ nl)%string Hbefore Hline).
Defined.
